(** * mb8600: the HNAP client of the Motorola MB8600 cable modem

    A shallow embedding of [pkg/mb8600/client.go] (signing, the signed
    RPC invoker [do], the two-phase [Login]) and of the channel decoder
    exercised by [pkg/mb8600/channels_test.go], with the properties the
    specification states about them. *)

From Stdlib Require Import ZArith List String Ascii Bool Lia QArith.
From Stdlib Require Import DecimalString.
From stdpp Require Import base option list strings gmap.

Import ListNotations.
Local Open Scope string_scope.
Local Open Scope Z_scope.

(* ===================================================================== *)
(** * Part I: definitions                                                 *)
(* ===================================================================== *)

(** ** Go strings as byte sequences *)

(** A Go [string] is a sequence of bytes; [string] of the Standard Library
    is a list of 8-bit characters. [bytes_of] is the conversion
    [[]byte(s)], each byte an integer in [0, 255]. *)
Definition bytes_of (s : string) : list Z :=
  map (fun c => Z.of_N (N_of_ascii c)) (list_ascii_of_string s).

(** [fmt.Sprintf("%d", n)] on an [int64]. *)
Definition fmt_d (n : Z) : string := NilZero.string_of_int (Z.to_int n).

(** ** crypto/md5 (RFC 1321) on 32-bit words kept in [Z] *)
Module MD5.

Definition mask32 : Z := 0xFFFFFFFF.
Definition w32 (x : Z) : Z := Z.land x mask32.
Definition add32 (x y : Z) : Z := w32 (x + y).
Definition not32 (x : Z) : Z := Z.lxor x mask32.
Definition rotl32 (x s : Z) : Z :=
  w32 (Z.lor (Z.shiftl x s) (Z.shiftr x (32 - s))).

(** The sine table [T[1..64]] and the per-round rotation amounts. *)
Definition K : list Z :=
  [ 0xd76aa478; 0xe8c7b756; 0x242070db; 0xc1bdceee;
    0xf57c0faf; 0x4787c62a; 0xa8304613; 0xfd469501;
    0x698098d8; 0x8b44f7af; 0xffff5bb1; 0x895cd7be;
    0x6b901122; 0xfd987193; 0xa679438e; 0x49b40821;
    0xf61e2562; 0xc040b340; 0x265e5a51; 0xe9b6c7aa;
    0xd62f105d; 0x02441453; 0xd8a1e681; 0xe7d3fbc8;
    0x21e1cde6; 0xc33707d6; 0xf4d50d87; 0x455a14ed;
    0xa9e3e905; 0xfcefa3f8; 0x676f02d9; 0x8d2a4c8a;
    0xfffa3942; 0x8771f681; 0x6d9d6122; 0xfde5380c;
    0xa4beea44; 0x4bdecfa9; 0xf6bb4b60; 0xbebfbc70;
    0x289b7ec6; 0xeaa127fa; 0xd4ef3085; 0x04881d05;
    0xd9d4d039; 0xe6db99e5; 0x1fa27cf8; 0xc4ac5665;
    0xf4292244; 0x432aff97; 0xab9423a7; 0xfc93a039;
    0x655b59c3; 0x8f0ccc92; 0xffeff47d; 0x85845dd1;
    0x6fa87e4f; 0xfe2ce6e0; 0xa3014314; 0x4e0811a1;
    0xf7537e82; 0xbd3af235; 0x2ad7d2bb; 0xeb86d391 ].

Definition S : list Z :=
  [ 7; 12; 17; 22; 7; 12; 17; 22; 7; 12; 17; 22; 7; 12; 17; 22;
    5;  9; 14; 20; 5;  9; 14; 20; 5;  9; 14; 20; 5;  9; 14; 20;
    4; 11; 16; 23; 4; 11; 16; 23; 4; 11; 16; 23; 4; 11; 16; 23;
    6; 10; 15; 21; 6; 10; 15; 21; 6; 10; 15; 21; 6; 10; 15; 21 ].

Record digest := Digest { dA : Z; dB : Z; dC : Z; dD : Z }.

Definition init : digest :=
  Digest 0x67452301 0xefcdab89 0x98badcfe 0x10325476.

(** Little-endian packing of bytes into 32-bit words and back. *)
Fixpoint words_of (bs : list Z) : list Z :=
  match bs with
  | b0 :: b1 :: b2 :: b3 :: rest =>
      (b0 + Z.shiftl b1 8 + Z.shiftl b2 16 + Z.shiftl b3 24) :: words_of rest
  | _ => []
  end.

Definition le_bytes (n : nat) (x : Z) : list Z :=
  map (fun i => Z.land (Z.shiftr x (8 * Z.of_nat i)) 0xFF) (seq 0 n).

(** Padding: a single 0x80, zeros up to 56 mod 64, the bit length on 8
    bytes. *)
Definition pad (msg : list Z) : list Z :=
  let len := Z.of_nat (length msg) in
  msg ++ 0x80 :: repeat 0 (Z.to_nat ((55 - len) mod 64))
      ++ le_bytes 8 (8 * len).

(** One of the 64 operations on the block [M] (16 words). *)
Definition step (M : list Z) (d : digest) (i : nat) : digest :=
  let '(Digest a b c d') := d in
  let iz := Z.of_nat i in
  let '(f, g) :=
    if iz <? 16 then (Z.lor (Z.land b c) (Z.land (not32 b) d'), iz)
    else if iz <? 32 then
      (Z.lor (Z.land d' b) (Z.land (not32 d') c), (5 * iz + 1) mod 16)
    else if iz <? 48 then (Z.lxor (Z.lxor b c) d', (3 * iz + 5) mod 16)
    else (Z.lxor c (Z.lor b (not32 d')), (7 * iz) mod 16) in
  let x := add32 (add32 (add32 f a) (nth i K 0)) (nth (Z.to_nat g) M 0) in
  Digest d' (add32 b (rotl32 x (nth i S 0))) b c.

Definition block (d : digest) (M : list Z) : digest :=
  let r := fold_left (step M) (seq 0 64) d in
  Digest (add32 (dA d) (dA r)) (add32 (dB d) (dB r))
         (add32 (dC d) (dC r)) (add32 (dD d) (dD r)).

(** Cut a word list into 16-word blocks; [n] bounds the number of
    blocks. *)
Fixpoint blocks (n : nat) (ws : list Z) : list (list Z) :=
  match n, ws with
  | O, _ | _, [] => []
  | Datatypes.S n', _ => firstn 16 ws :: blocks n' (skipn 16 ws)
  end.

Definition sum (msg : list Z) : list Z :=
  let ws := words_of (pad msg) in
  let d := fold_left block (blocks (length ws) ws) init in
  le_bytes 4 (dA d) ++ le_bytes 4 (dB d) ++ le_bytes 4 (dC d)
    ++ le_bytes 4 (dD d).

Definition BlockSize : nat := 64.

End MD5.

(** ** crypto/hmac over MD5 *)
Module HMAC.

(** [hmac.New(md5.New, key)]: a key longer than the block size is hashed
    first, then padded with zeros to the block size. *)
Definition block_key (key : list Z) : list Z :=
  let k := if (MD5.BlockSize <? length key)%nat then MD5.sum key else key in
  k ++ repeat 0 (MD5.BlockSize - length k)%nat.

Definition sum (key data : list Z) : list Z :=
  let k := block_key key in
  let ipad := map (Z.lxor 0x36) k in
  let opad := map (Z.lxor 0x5c) k in
  MD5.sum (opad ++ MD5.sum (ipad ++ data)).

End HMAC.

(** [fmt.Sprintf("%X", b)] on a byte slice: two upper-case hexadecimal
    digits per byte. *)
Definition hex_digit (n : Z) : ascii :=
  if n <? 10 then ascii_of_N (Z.to_N (48 + n))
  else ascii_of_N (Z.to_N (55 + n)).

Fixpoint fmt_X (bs : list Z) : string :=
  match bs with
  | [] => ""
  | b :: rest =>
      String (hex_digit (Z.shiftr b 4))
        (String (hex_digit (Z.land b 0xF)) (fmt_X rest))
  end.

(** client.go: [md5Sum]. *)
Definition md5Sum (key data : string) : string :=
  fmt_X (HMAC.sum (bytes_of key) (bytes_of data)).

(** ** Go values: errors, maps, multi-value returns *)

(** A Go [error] built by [fmt.Errorf] or returned by a library call is
    known by its message. *)
Inductive error := Errorf (msg : string).

(** The error values of client.go, by the names of the taxonomy. *)
Definition InvalidAction (action : string) : error :=
  Errorf ("invalid action: " +:+ action).
Definition NonOKStatus (action : string) (code : Z) : error :=
  Errorf ("action, " +:+ action +:+ ", received non-OK status code: "
          +:+ fmt_d code).
Definition NoResponse : error := Errorf "no response from modem".
Definition LoginFailed : error := Errorf "login failed".

(** A [map[string]string] value: [None] is the nil map, which reads as
    empty. *)
Definition GoMap : Type := option (gmap string string).

(** [v := m[k]] and [v, ok := m[k]]. *)
Definition index (m : GoMap) (k : string) : string :=
  match m with
  | Some g => default "" (g !! k)
  | None => ""
  end.

Definition index_ok (m : GoMap) (k : string) : string * bool :=
  match m with
  | Some g => match g !! k with Some v => (v, true) | None => ("", false) end
  | None => ("", false)
  end.

(** ** Constants of client.go *)
Definition soapNamespace : string := "http://purenetworks.com/HNAP1/".
Definition privateKeyCookieName : string := "PrivateKey".
Definition defaultPrivateKeyValue : string := "withoutloginkey".
Definition uidCookieName : string := "uid".
Definition defaultUidValue : string := "".

Definition knownActions : list string :=
  [ "Login";
    "GetHomeConnection";
    "GetHomeAddress";
    "GetMotoStatusSoftware";
    "GetMotoStatusLog";
    "GetMotoLagStatus";
    "GetMotoStatusConnectionInfo";
    "GetMotoStatusDownstreamChannelInfo";
    "GetMotoStatusStartupSequence";
    "GetMotoStatusUpstreamChannelInfo" ].

(** [slices.Contains] on strings. *)
Definition slices_Contains (l : list string) (x : string) : bool :=
  existsb (String.eqb x) l.

(** ** The HTTP client: cookie jar, requests, round trips *)

Record Cookie := { Name : string; Value : string; Path : string }.

(** The jar of [net/http/cookiejar], restricted to the one URL the client
    ever uses: its entries in creation order. [SetCookies] overwrites the
    entry of the same name and path and keeps its place, or appends a new
    one. [Cookies] hands the entries out with only [Name] and [Value] set,
    which is why [getCookie] also accepts an empty path. The jar is written
    through [setCookie] only: the HNAP responses of the device carry no
    Set-Cookie header. *)
Definition same_entry (c e : Cookie) : bool :=
  String.eqb (Name e) (Name c) && String.eqb (Path e) (Path c).

Fixpoint jar_SetCookies (c : Cookie) (j : list Cookie) : list Cookie :=
  match j with
  | [] => [c]
  | e :: j' => if same_entry c e then c :: j' else e :: jar_SetCookies c j'
  end.

Definition jar_Cookies (j : list Cookie) : list Cookie :=
  map (fun e => {| Name := Name e; Value := Value e; Path := "" |}) j.

(** The test of the loop in [getCookie]:
    [cookie.Name == name && (cookie.Path == path || cookie.Path == "")]. *)
Definition cookie_matches (name path : string) (cookie : Cookie) : bool :=
  String.eqb (Name cookie) name
  && (String.eqb (Path cookie) path || String.eqb (Path cookie) "").

Record Request := {
  Method : string;
  URL : string;
  Header : gmap string string;
  Cookies : list Cookie;
  Body : string
}.

(** What [io.ReadAll(resp.Body)] gives, and what [client.Do] gives. *)
Inductive ReadAll := BodyData (data : string) | BodyErr (e : error).
Inductive RoundTrip :=
| DoErr (e : error)
| Response (StatusCode : Z) (body : ReadAll).

(** The collaborators outside the package: the library functions whose
    results the code branches on, the wall clock, and the device behind
    the transport, which answers a request knowing the requests before
    it. [url_Parse] gives the error of [url.Parse], if any. *)
Class External := {
  url_Parse : string -> option error;
  json_Marshal : gmap string (gmap string string) -> string + error;
  json_Unmarshal : string -> gmap string GoMap + error;
  time_Now_UnixMilli : nat -> Z;
  transport : list Request -> Request -> RoundTrip
}.

(** ** State and control: a state monad with panics *)

(** The mutable part of a client and of its surroundings: the cookie jar,
    the number of clock readings taken so far, and the requests put on the
    wire so far, oldest first. *)
Record State := {
  jar : list Cookie;
  clock_reads : nat;
  wire : list Request
}.

Inductive Outcome (A : Type) :=
| Return (a : A) (s : State)
| Panic (e : error).
Arguments Return {A} a s.
Arguments Panic {A} e.

Definition M (A : Type) : Type := State -> Outcome A.

#[global] Instance M_ret : MRet M := fun A a s => Return a s.
#[global] Instance M_bind : MBind M := fun A B f m s =>
  match m s with
  | Return a s' => f a s'
  | Panic e => Panic e
  end.

Definition panic {A} (e : error) : M A := fun _ => Panic e.
Definition get_jar : M (list Cookie) := fun s => Return (jar s) s.
Definition put_jar (j : list Cookie) : M unit := fun s =>
  Return tt {| jar := j; clock_reads := clock_reads s; wire := wire s |}.

(** ** Timestamper *)

(** [Timestamp t n] is what the [n]-th call of [t.Timestamp()] returns. *)
Class Timestamper (T : Type) := Timestamp : T -> nat -> Z.

Record DefaultTimestamper := { }.
Record MockTimestamper := { MockValue : Z }.

#[global] Instance DefaultTimestamper_Timestamp `{External} :
  Timestamper DefaultTimestamper := fun _ n => time_Now_UnixMilli n.
#[global] Instance MockTimestamper_Timestamp :
  Timestamper MockTimestamper := fun t _ => MockValue t.

(** ** MotoClient *)

(** The logger is left out; the jar of [client] is in [State] and its
    transport in [External]. *)
Record MotoClient (T : Type) := {
  Address : string;
  Username : string;
  Password : string;
  timestamper : T
}.
Arguments Address {T} _.
Arguments Username {T} _.
Arguments Password {T} _.
Arguments timestamper {T} _.

Definition NewMotoClientWithTimestamper {T} (address username password : string)
    (ts : T) : MotoClient T * State :=
  ({| Address := address; Username := username; Password := password;
      timestamper := ts |},
   {| jar := []; clock_reads := 0%nat; wire := [] |}).

Definition NewMotoClient (address username password : string)
    : MotoClient DefaultTimestamper * State :=
  NewMotoClientWithTimestamper address username password
    Build_DefaultTimestamper.

(** ** client.go: the methods of MotoClient *)
Section Client.
Context `{Ext : External} {T : Type} `{TS : !Timestamper T}.
Implicit Types (c : MotoClient T) (s : State).

(** One call of [c.timestamper.Timestamp()]. *)
Definition call_Timestamp c : M Z := fun s =>
  Return (Timestamp (timestamper c) (clock_reads s))
         {| jar := jar s; clock_reads := S (clock_reads s); wire := wire s |}.

Definition GetHNAPURI c : string := "https://" +:+ Address c +:+ "/HNAP1/".

(** Only the error of the returned pair matters: the URL picks the jar
    entries of the device, and there is one device. *)
Definition GetHNAPURL c : option error := url_Parse (GetHNAPURI c).

Definition getCookie c (name path defaultValue : string)
    : M (string * option error) :=
  match GetHNAPURL c with
  | Some err => mret ("", Some err)
  | None =>
      j ← get_jar;
      mret (match find (cookie_matches name path) (jar_Cookies j) with
            | Some cookie => (Value cookie, None)
            | None => (defaultValue, None)
            end)
  end.

Definition setCookie c (name value path : string) : M (option error) :=
  match GetHNAPURL c with
  | Some err => mret (Some err)
  | None =>
      let cookie := {| Name := name; Value := value; Path := path |} in
      j ← get_jar;
      _ ← put_jar (jar_SetCookies cookie j);
      mret None
  end.

Definition GetPrivateKey c : M (string * option error) :=
  getCookie c privateKeyCookieName "/" defaultPrivateKeyValue.

Definition GetUID c : M (string * option error) :=
  getCookie c uidCookieName "/" defaultUidValue.

Definition SetPrivateKey c (key : string) : M (option error) :=
  setCookie c privateKeyCookieName key "/".

Definition SetUID c (uid : string) : M (option error) :=
  setCookie c uidCookieName uid "/".

Definition hnapAuth c (action : string) : M string :=
  ts ← call_Timestamp c;
  let data := fmt_d ts +:+ soapNamespace +:+ action in
  r ← GetPrivateKey c;
  match r with
  | (_, Some err) => panic err
  | (pkey, None) => mret (md5Sum pkey data +:+ " " +:+ fmt_d ts)
  end.

(** [http.NewRequest]: with a valid method it fails exactly when the URL
    does not parse. *)
Definition http_NewRequest (method url body : string) : Request + error :=
  match url_Parse url with
  | Some err => inr err
  | None => inl {| Method := method; URL := url; Header := ∅;
                   Cookies := []; Body := body |}
  end.

(** [c.client.Do(req)]: the cookies of the jar go out with the request,
    the request is put on the wire, the device answers. *)
Definition client_Do (req : Request) : M RoundTrip := fun s =>
  let out := {| Method := Method req; URL := URL req; Header := Header req;
                Cookies := jar_Cookies (jar s); Body := Body req |} in
  Return (transport (wire s) out)
         {| jar := jar s; clock_reads := clock_reads s;
            wire := wire s ++ [out] |}.

Definition do c (action : string) (params : GoMap)
    : M (GoMap * option error) :=
  if negb (slices_Contains knownActions action) then
    mret (None, Some (InvalidAction action))
  else
    let params := match params with None => ∅ | Some p => p end in
    let actionUri := soapNamespace +:+ action in
    let data : gmap string (gmap string string) := {[ action := params ]} in
    match json_Marshal data with
    | inr err => mret (None, Some err)
    | inl jsonData =>
        auth ← hnapAuth c action;
        let headers : gmap string string :=
          <["Accept" := "application/json"]>
            (<["Content-Type" := "application/json"]>
               (<["SOAPAction" := actionUri]>
                  (<["HNAP_AUTH" := auth]> ∅))) in
        match http_NewRequest "POST" (GetHNAPURI c) jsonData with
        | inr _ => mret (None, None)
        | inl req =>
            let req := {| Method := Method req; URL := URL req;
                          Header := headers ∪ Header req;
                          Cookies := Cookies req; Body := Body req |} in
            resp ← client_Do req;
            match resp with
            | DoErr _ => mret (None, None)
            | Response StatusCode body =>
                if negb (StatusCode =? 200) then
                  mret (None, Some (NonOKStatus action StatusCode))
                else
                  match body with
                  | BodyErr _ => mret (None, None)
                  | BodyData respData =>
                      match json_Unmarshal respData with
                      | inr err => mret (None, Some err)
                      | inl respJsonData =>
                          let key := action +:+ "Response" in
                          match respJsonData !! key with
                          | None => mret (None, Some NoResponse)
                          | Some value => mret (value, None)
                          end
                      end
                  end
            end
        end
    end.

(** The check on a [Login] response: [!ok || val == "FAILED"]. *)
Definition login_rejected (resp : GoMap) : bool :=
  let '(val, ok) := index_ok resp "LoginResult" in
  negb ok || String.eqb val "FAILED".

(** The parameter map [data] of [Login] as first built, and as it is
    after the two assignments before the second call. *)
Definition login_request c : gmap string string :=
  <["Action" := "request"]>
    (<["Captcha" := ""]>
       (<["PrivateLogin" := "LoginPassword"]>
          (<["Username" := Username c]>
             (<["LoginPassword" := ""]> ∅)))).

Definition login_confirm c (pkey challenge : string) : gmap string string :=
  <["LoginPassword" := md5Sum pkey challenge]>
    (<["Action" := "login"]> (login_request c)).

Definition Login c : M (GoMap * option error) :=
  let data := login_request c in
  r ← do c "Login" (Some data);
  match r with
  | (_, Some err) => mret (None, Some err)
  | (resp, None) =>
      if login_rejected resp then mret (None, Some LoginFailed)
      else
        let publicKey := index resp "PublicKey" in
        let challenge := index resp "Challenge" in
        _ ← SetPrivateKey c (md5Sum (publicKey +:+ Password c) challenge);
        _ ← SetUID c (index resp "Cookie");
        k ← GetPrivateKey c;
        match k with
        | (_, Some err) => mret (None, Some err)
        | (pkey, None) =>
            let data := login_confirm c pkey challenge in
            r ← do c "Login" (Some data);
            match r with
            | (_, Some err) => mret (None, Some err)
            | (resp, None) =>
                if login_rejected resp then mret (None, Some LoginFailed)
                else mret (resp, None)
            end
        end
  end.

End Client.

(** ** Library functions on strings and numbers *)

(** [strings.Split(s, sep)] for a non-empty [sep]: [skip] counts the
    characters of a separator still to pass over, [cur] is the field read
    so far. *)
Fixpoint split_from (sep : string) (skip : nat) (cur : string) (s : string)
    : list string :=
  match s with
  | EmptyString => [cur]
  | String a s' =>
      match skip with
      | S k => split_from sep k cur s'
      | O =>
          if String.prefix sep s
          then cur :: split_from sep (String.length sep - 1) "" s'
          else split_from sep 0 (cur +:+ String a "") s'
      end
  end.

Definition strings_Split (s sep : string) : list string :=
  split_from sep 0 "" s.

(** [strings.TrimSuffix(s, suffix)]. *)
Definition strings_TrimSuffix (s suffix : string) : string :=
  let n := String.length s in
  let k := String.length suffix in
  if (k <=? n)%nat && String.eqb (String.substring (n - k) k s) suffix
  then String.substring 0 (n - k) s
  else s.

(** [strings.TrimSpace(s)] on ASCII white space. *)
Definition is_space (a : ascii) : bool :=
  let n := Z.of_N (N_of_ascii a) in
  ((9 <=? n) && (n <=? 13)) || (n =? 32).

Fixpoint trim_left (s : string) : string :=
  match s with
  | String a s' => if is_space a then trim_left s' else s
  | EmptyString => s
  end.

Definition strings_TrimSpace (s : string) : string :=
  String.rev (trim_left (String.rev (trim_left s))).

(** Decimal digits, most significant first. *)
Definition digit_of (a : ascii) : option Z :=
  let n := Z.of_N (N_of_ascii a) in
  if (48 <=? n) && (n <=? 57) then Some (n - 48) else None.

Fixpoint digits_from (acc : Z) (s : string) : option Z :=
  match s with
  | EmptyString => Some acc
  | String a s' =>
      match digit_of a with
      | Some d => digits_from (10 * acc + d) s'
      | None => None
      end
  end.

(** An optional sign in front of the rest. *)
Definition split_sign (s : string) : bool * string :=
  match s with
  | String "-" r => (true, r)
  | String "+" r => (false, r)
  | _ => (false, s)
  end.

(** [strconv.Atoi] on a 64-bit [int]: a sign, then one or more decimal
    digits; a value out of range is an error. *)
Definition strconv_Atoi (s : string) : option Z :=
  let '(neg, body) := split_sign s in
  match body with
  | EmptyString => None
  | _ =>
      match digits_from 0 body with
      | Some v =>
          let v := if neg then - v else v in
          if (- 2 ^ 63 <=? v) && (v <=? 2 ^ 63 - 1) then Some v else None
      | None => None
      end
  end.

(** The text before the first ['.'] and, if there is one, the text after
    it. *)
Fixpoint split_dot (s : string) : string * option string :=
  match s with
  | EmptyString => ("", None)
  | String "." s' => ("", Some s')
  | String a s' => let '(i, f) := split_dot s' in (String a i, f)
  end.

(** [strconv.ParseFloat(s, 64)] on plain decimal numerals
    [[+-]digits[.digits]] (at least one digit), the value kept as the
    exact fraction in lowest terms; exponents, hexadecimal numerals,
    infinities and NaN are taken as not numeric, and the rounding to a
    binary float is left out. *)
Definition strconv_ParseFloat (s : string) : option Q :=
  let '(neg, body) := split_sign s in
  let '(i, f) := split_dot body in
  let f := default "" f in
  match i +:+ f with
  | EmptyString => None
  | ds =>
      match digits_from 0 ds with
      | Some m =>
          let m := if neg then - m else m in
          Some (Qred (Qmake m (Z.to_pos (10 ^ Z.of_nat (String.length f)))))
      | None => None
      end
  end.

(** ** The channel decoder *)

Module DownstreamChannel.
Record t := {
  Channel : Z;
  ChannelID : Z;
  LockStatus : string;
  Modulation : string;
  Frequency : Q;
  SignalToNoise : Q;
  Power : Q;
  CorrectedErrors : Z;
  UncorrectedErrors : Z
}.
End DownstreamChannel.

Module UpstreamChannel.
Record t := {
  Channel : Z;
  ChannelID : Z;
  LockStatus : string;
  Power : Q;
  SymbolRate : Z;
  Frequency : Q;
  ChannelType : string
}.
End UpstreamChannel.

Definition recordSeparator : string := "|+|".
Definition fieldSeparator : string := "^".
Definition downstreamFieldCount : nat := 9.
Definition upstreamFieldCount : nat := 7.

Definition MalformedRecord : error := Errorf "malformed record".

(** Modelled from the spec: the fields of one record. channels.go is not
    among the sources; its tests are. The record is split on the field
    separator. In the device's strings, and in every line the tests take as
    valid, each field is followed by its separator, the last one too: that
    closing separator ends the record and starts no further field. *)
Definition record_fields (line : string) : list string :=
  strings_Split (strings_TrimSuffix line fieldSeparator) fieldSeparator.

(** Modelled from the spec: the parsing of a numeric field in
    channels.go, which is not among the sources. Standard decimal parsing,
    the blanks around the numeral dropped first (the device pads the power
    column, [" 2.8"], and the test takes that line as valid). *)
Definition int_field (f : string) : option Z :=
  strconv_Atoi (strings_TrimSpace f).
Definition float_field (f : string) : option Q :=
  strconv_ParseFloat (strings_TrimSpace f).

(** Modelled from the spec: NewDownstreamChannelFromLine of channels.go,
    which is not among the sources. The field count must be 9, numeric
    fields are parsed as decimals, any failure is a MalformedRecord. The
    fields are taken in the order of the test of the package
    ([expDownstreamChannel]): channel, lock status, modulation, channel
    ID, frequency, power, signal to noise, corrected, uncorrected. *)
Definition NewDownstreamChannelFromLine (line : string)
    : option DownstreamChannel.t * option error :=
  match record_fields line with
  | [f1; f2; f3; f4; f5; f6; f7; f8; f9] =>
      match int_field f1, int_field f4, float_field f5, float_field f6,
            float_field f7, int_field f8, int_field f9 with
      | Some channel, Some channelID, Some frequency, Some power, Some snr,
        Some corrected, Some uncorrected =>
          (Some {| DownstreamChannel.Channel := channel;
                   DownstreamChannel.ChannelID := channelID;
                   DownstreamChannel.LockStatus := f2;
                   DownstreamChannel.Modulation := f3;
                   DownstreamChannel.Frequency := frequency;
                   DownstreamChannel.SignalToNoise := snr;
                   DownstreamChannel.Power := power;
                   DownstreamChannel.CorrectedErrors := corrected;
                   DownstreamChannel.UncorrectedErrors := uncorrected |},
           None)
      | _, _, _, _, _, _, _ => (None, Some MalformedRecord)
      end
  | _ => (None, Some MalformedRecord)
  end.

(** The decoder as section 3 of the specification words it: the same
    function with the sixth field read as the signal-to-noise ratio and
    the seventh as the power. *)
Definition NewDownstreamChannelFromLine_spec_order (line : string)
    : option DownstreamChannel.t * option error :=
  match record_fields line with
  | [f1; f2; f3; f4; f5; f6; f7; f8; f9] =>
      match int_field f1, int_field f4, float_field f5, float_field f6,
            float_field f7, int_field f8, int_field f9 with
      | Some channel, Some channelID, Some frequency, Some snr, Some power,
        Some corrected, Some uncorrected =>
          (Some {| DownstreamChannel.Channel := channel;
                   DownstreamChannel.ChannelID := channelID;
                   DownstreamChannel.LockStatus := f2;
                   DownstreamChannel.Modulation := f3;
                   DownstreamChannel.Frequency := frequency;
                   DownstreamChannel.SignalToNoise := snr;
                   DownstreamChannel.Power := power;
                   DownstreamChannel.CorrectedErrors := corrected;
                   DownstreamChannel.UncorrectedErrors := uncorrected |},
           None)
      | _, _, _, _, _, _, _ => (None, Some MalformedRecord)
      end
  | _ => (None, Some MalformedRecord)
  end.

(** Modelled from the spec: NewUpstreamChannelFromLine of channels.go,
    which is not among the sources. Seven fields: channel, lock status,
    channel type, channel ID, symbol rate, frequency, power. *)
Definition NewUpstreamChannelFromLine (line : string)
    : option UpstreamChannel.t * option error :=
  match record_fields line with
  | [f1; f2; f3; f4; f5; f6; f7] =>
      match int_field f1, int_field f4, int_field f5, float_field f6,
            float_field f7 with
      | Some channel, Some channelID, Some symbolRate, Some frequency,
        Some power =>
          (Some {| UpstreamChannel.Channel := channel;
                   UpstreamChannel.ChannelID := channelID;
                   UpstreamChannel.LockStatus := f2;
                   UpstreamChannel.Power := power;
                   UpstreamChannel.SymbolRate := symbolRate;
                   UpstreamChannel.Frequency := frequency;
                   UpstreamChannel.ChannelType := f3 |},
           None)
      | _, _, _, _, _ => (None, Some MalformedRecord)
      end
  | _ => (None, Some MalformedRecord)
  end.

(** Modelled from the spec: the loop over the records in channels.go,
    which is not among the sources. The records are decoded in order; the
    first error ends the decoding. *)
Fixpoint decode_lines {A} (decode : string -> option A * option error)
    (lines : list string) : list A * option error :=
  match lines with
  | [] => ([], None)
  | line :: rest =>
      match decode line with
      | (Some ch, None) =>
          match decode_lines decode rest with
          | (chs, None) => (ch :: chs, None)
          | (_, Some err) => ([], Some err)
          end
      | (_, Some err) => ([], Some err)
      | (None, None) => ([], Some MalformedRecord)
      end
  end.

(** Modelled from the spec: NewDownstreamChannelsFromResponse of
    channels.go, which is not among the sources. The empty string gives no
    record and no error; otherwise the string is split on the record
    separator and every record decoded, in order. *)
Definition NewDownstreamChannelsFromResponse (response : string)
    : list DownstreamChannel.t * option error :=
  if String.eqb response "" then ([], None)
  else decode_lines NewDownstreamChannelFromLine
         (strings_Split response recordSeparator).

(** Modelled from the spec: NewUpstreamChannelsFromResponse of
    channels.go, which is not among the sources; as for downstream. *)
Definition NewUpstreamChannelsFromResponse (response : string)
    : list UpstreamChannel.t * option error :=
  if String.eqb response "" then ([], None)
  else decode_lines NewUpstreamChannelFromLine
         (strings_Split response recordSeparator).

(** client.go: the two accessors. *)
Section Accessors.
Context `{Ext : External} {T : Type} `{TS : !Timestamper T}.

Definition GetDownstreamChannels (c : MotoClient T)
    : M (list DownstreamChannel.t * option error) :=
  r ← do c "GetMotoStatusDownstreamChannelInfo" None;
  match r with
  | (_, Some err) => mret ([], Some err)
  | (resp, None) =>
      let data := index resp "MotoConnDownstreamChannel" in
      mret (NewDownstreamChannelsFromResponse data)
  end.

Definition GetUpstreamChannels (c : MotoClient T)
    : M (list UpstreamChannel.t * option error) :=
  r ← do c "GetMotoStatusUpstreamChannelInfo" None;
  match r with
  | (_, Some err) => mret ([], Some err)
  | (resp, None) =>
      let data := index resp "MotoConnUpstreamChannel" in
      mret (NewUpstreamChannelsFromResponse data)
  end.

End Accessors.

(** ** Values of the tests *)

(** channels_test.go: the first downstream line, [upstreamResponse], and
    the records the tests expect for them; a float literal such as [45.1]
    is the fraction 451/10 in lowest terms. *)
Definition downstreamLine : string :=
  "1^Locked^QAM256^20^531.0^ 2.8^45.1^0^0^".
Definition upstreamResponse : string := "1^Locked^SC-QAM^4^5120^35.6^56.0^".
Definition downstreamResponse : string :=
  "1^Locked^QAM256^20^531.0^ 2.8^45.1^0^0^|+|2^Locked^QAM256^13^489.0^ 3.1^45.4^0^0^|+|3^Locked^QAM256^14^495.0^ 3.0^45.5^0^0^|+|4^Locked^QAM256^15^501.0^ 3.0^41.6^0^0^|+|5^Locked^QAM256^16^507.0^ 3.0^40.7^0^0^|+|6^Locked^QAM256^17^513.0^ 3.1^43.3^0^0^|+|7^Locked^QAM256^18^519.0^ 3.0^45.4^0^0^|+|8^Locked^QAM256^19^525.0^ 3.0^45.4^0^0^|+|9^Locked^QAM256^21^537.0^ 2.6^45.3^10^0^|+|10^Locked^QAM256^22^543.0^ 2.3^44.9^14^0^|+|11^Locked^QAM256^23^549.0^ 2.3^45.0^11^0^|+|12^Locked^QAM256^24^555.0^ 1.9^44.7^0^0^|+|13^Locked^QAM256^25^561.0^ 2.1^44.8^0^0^|+|14^Locked^QAM256^26^567.0^ 2.3^44.5^0^0^|+|15^Locked^QAM256^27^573.0^ 2.4^44.8^0^0^|+|16^Locked^QAM256^28^579.0^ 2.6^44.8^0^0^|+|17^Locked^QAM256^29^585.0^ 2.6^44.9^0^0^|+|18^Locked^QAM256^30^591.0^ 2.8^45.0^0^0^|+|19^Locked^QAM256^31^597.0^ 2.8^45.0^0^0^|+|20^Locked^QAM256^32^603.0^ 2.8^39.5^0^0^|+|21^Locked^QAM256^33^609.0^ 2.9^44.3^0^0^|+|22^Locked^QAM256^34^615.0^ 3.1^45.2^0^0^|+|23^Locked^QAM256^35^621.0^ 3.2^44.9^28138575^44205737^|+|24^Locked^QAM256^36^627.0^ 3.4^30.9^261314250^787815699^|+|25^Locked^QAM256^37^633.0^ 3.3^37.4^103208291^126451293^|+|26^Locked^QAM256^38^639.0^ 3.8^45.3^4147493^506585^|+|27^Locked^QAM256^39^645.0^ 3.8^45.3^0^0^|+|28^Locked^QAM256^40^651.0^ 4.0^45.4^0^0^|+|29^Locked^QAM256^41^657.0^ 4.0^45.3^0^0^|+|30^Locked^QAM256^42^663.0^ 3.9^45.1^9^0^|+|31^Locked^QAM256^43^669.0^ 3.6^45.1^17^0^|+|32^Locked^QAM256^44^675.0^ 3.8^44.5^9^0^|+|33^Locked^OFDM PLC^193^957.0^-0.7^43.0^-1565968621^150^".

Definition expDownstreamChannel : DownstreamChannel.t :=
  {| DownstreamChannel.Channel := 1;
     DownstreamChannel.ChannelID := 20;
     DownstreamChannel.LockStatus := "Locked";
     DownstreamChannel.Modulation := "QAM256";
     DownstreamChannel.Frequency := Qred (5310 # 10);
     DownstreamChannel.SignalToNoise := Qred (451 # 10);
     DownstreamChannel.Power := Qred (28 # 10);
     DownstreamChannel.CorrectedErrors := 0;
     DownstreamChannel.UncorrectedErrors := 0 |}.

Definition expUpstreamChannel : UpstreamChannel.t :=
  {| UpstreamChannel.Channel := 1;
     UpstreamChannel.ChannelID := 4;
     UpstreamChannel.LockStatus := "Locked";
     UpstreamChannel.Power := Qred (560 # 10);
     UpstreamChannel.SymbolRate := 5120;
     UpstreamChannel.Frequency := Qred (356 # 10);
     UpstreamChannel.ChannelType := "SC-QAM" |}.

(** client_test.go: the constants of the tests. *)
Definition test_publicKey : string := "jXesCa9ek/lI0/R4TNdr".
Definition test_challenge : string := "q9l0h9ieIXKwJlEtTXps".
Definition test_address : string := "192.168.100.1".
Definition test_username : string := "admin".
Definition test_password : string := "motorola".
Definition test_timestamp : Z := 1703361406202.

(** ** Predicates of the statements *)

(** A response map that has [LoginResult] and not as ["FAILED"]; and one
    that lacks the key or has it as ["FAILED"]. *)
Definition login_accepted (resp : GoMap) : Prop :=
  exists g v, resp = Some g /\ g !! "LoginResult" = Some v /\ v <> "FAILED".

Definition login_refused (resp : GoMap) : Prop :=
  resp = None \/
  exists g, resp = Some g /\
    (g !! "LoginResult" = None \/ g !! "LoginResult" = Some "FAILED").

(** Every entry of the jar was stored under the path ["/"], the only one
    [SetPrivateKey] and [SetUID] use. *)
Definition jar_wf (j : list Cookie) : Prop := Forall (fun e => Path e = "/") j.

(** The state once phase 1 has stored the signing key [key] and the
    session id [uid] on top of [s]. *)
Definition committed (key uid : string) (s : State) : State :=
  {| jar :=
       jar_SetCookies {| Name := uidCookieName; Value := uid; Path := "/" |}
         (jar_SetCookies
            {| Name := privateKeyCookieName; Value := key; Path := "/" |}
            (jar s));
     clock_reads := clock_reads s;
     wire := wire s |}.

(** What [Login] returns for the result [r] of its second call. *)
Definition login_outcome (r : GoMap * option error) : GoMap * option error :=
  match r with
  | (_, Some err) => (None, Some err)
  | (resp, None) =>
      if login_rejected resp then (None, Some LoginFailed) else (resp, None)
  end.

(** ** A scripted device, for the examples *)

(** Bodies are short tags in place of JSON text; the device answers the
    n-th request with the n-th entry of its script and drops the
    connection once the script is over. *)
Definition tag_envelope (body : string) : gmap string GoMap + error :=
  if String.eqb body "challenge" then
    inl {[ "LoginResponse" :=
             Some (<["LoginResult" := "OK"]>
                     (<["PublicKey" := test_publicKey]>
                        (<["Challenge" := test_challenge]>
                           (<["Cookie" := "sid-1"]> ∅)))) ]}
  else if String.eqb body "ok" then
    inl {[ "LoginResponse" := Some {[ "LoginResult" := "OK" ]} ]}
  else if String.eqb body "failed" then
    inl {[ "LoginResponse" := Some {[ "LoginResult" := "FAILED" ]} ]}
  else inr (Errorf "invalid character").

Definition scripted (script : list RoundTrip) : External :=
  {| url_Parse := fun _ => None;
     json_Marshal := fun data =>
       inl (match data !! "Login" with
            | Some p => "Login:" +:+ default "" (p !! "Action")
            | None => "query"
            end);
     json_Unmarshal := tag_envelope;
     time_Now_UnixMilli := fun n => test_timestamp + Z.of_nat n;
     transport := fun sent _ => nth (length sent) script (DoErr (Errorf "EOF")) |}.

Definition mock_client : MotoClient MockTimestamper * State :=
  NewMotoClientWithTimestamper test_address test_username test_password
    {| MockValue := test_timestamp |}.

(** Four devices: one that is unreachable, one that refuses the first
    [Login] request, one that accepts the first and refuses the second,
    and one whose answers have [LoginResult] and nothing else. *)
Definition unreachable : External := scripted [].
Definition refusing : External :=
  scripted [Response 200 (BodyData "failed")].
Definition refusing_late : External :=
  scripted [Response 200 (BodyData "challenge");
            Response 200 (BodyData "failed")].
Definition terse : External :=
  scripted [Response 200 (BodyData "ok"); Response 200 (BodyData "ok")].

(** The map in the answer tagged ["challenge"]. *)
Definition challenge_map : gmap string string :=
  <["LoginResult" := "OK"]>
    (<["PublicKey" := test_publicKey]>
       (<["Challenge" := test_challenge]> (<["Cookie" := "sid-1"]> ∅))).

(** The first [Login] request of [mock_client] as it goes on the wire, and
    the state after it. *)
Definition first_login_request : Request :=
  {| Method := "POST";
     URL := "https://192.168.100.1/HNAP1/";
     Header :=
       <["Accept" := "application/json"]>
         (<["Content-Type" := "application/json"]>
            (<["SOAPAction" := "http://purenetworks.com/HNAP1/Login"]>
               (<["HNAP_AUTH" :=
                    "B390D71563C4C02619AF9D61F9D942AF 1703361406202"]> ∅)));
     Cookies := [];
     Body := "Login:request" |}.

Definition after_first_login : State :=
  {| jar := []; clock_reads := 1; wire := [first_login_request] |}.

(** The value a call returns, if it does not panic. *)
Definition result_of {A} (o : Outcome A) : option A :=
  match o with
  | Return a _ => Some a
  | Panic _ => None
  end.

(** ** What a signed request looks like *)
Section Wire.
Context {T : Type} `{TS : !Timestamper T}.
Implicit Types (c : MotoClient T) (s : State).

(** The value the jar gives for the cookie [name], or [dflt]: what the
    loop of [getCookie] finds when the URL parses. *)
Definition stored (name dflt : string) s : string :=
  match find (cookie_matches name "/") (jar_Cookies (jar s)) with
  | Some cookie => Value cookie
  | None => dflt
  end.

(** The [HNAP_AUTH] value for [action] in state [s]: the next clock
    reading, signed with the stored signing key. *)
Definition token c (action : string) s : string :=
  let ts := Timestamp (timestamper c) (clock_reads s) in
  md5Sum (stored privateKeyCookieName defaultPrivateKeyValue s)
         (fmt_d ts +:+ soapNamespace +:+ action)
  +:+ " " +:+ fmt_d ts.

(** The request [do] puts on the wire for [action] with the marshalled
    body [body], from state [s]; the header names are those the code
    hands to [Header.Set]. *)
Definition outgoing c (action body : string) s : Request :=
  {| Method := "POST";
     URL := "https://" +:+ Address c +:+ "/HNAP1/";
     Header :=
       <["Accept" := "application/json"]>
         (<["Content-Type" := "application/json"]>
            (<["SOAPAction" := soapNamespace +:+ action]>
               (<["HNAP_AUTH" := token c action s]> ∅)));
     Cookies := jar_Cookies (jar s);
     Body := body |}.

(** The state after one clock reading and one request. *)
Definition signed_and_sent (req : Request) s : State :=
  {| jar := jar s; clock_reads := S (clock_reads s);
     wire := wire s ++ [req] |}.

End Wire.

(** A device behind an address that does not parse as a URL. *)
Definition unparsable : External :=
  {| url_Parse := fun _ => Some (Errorf "invalid URL");
     json_Marshal := fun _ => inl "{}";
     json_Unmarshal := tag_envelope;
     time_Now_UnixMilli := fun n => test_timestamp + Z.of_nat n;
     transport := fun _ _ => DoErr (Errorf "EOF") |}.

(** A device that answers every request with the status [code] and a
    body that unmarshals to the envelope [env]. *)
Definition answering (code : Z) (env : gmap string GoMap) : External :=
  {| url_Parse := fun _ => None;
     json_Marshal := fun _ => inl "{}";
     json_Unmarshal := fun _ => inl env;
     time_Now_UnixMilli := fun n => test_timestamp + Z.of_nat n;
     transport := fun _ _ => Response code (BodyData "{}") |}.

(** An upper-case hexadecimal digit. *)
Definition is_upper_hex (a : ascii) : bool :=
  let n := Z.of_N (N_of_ascii a) in
  ((48 <=? n) && (n <=? 57)) || ((65 <=? n) && (n <=? 70)).

(* ===================================================================== *)
(** * Part II: properties                                                 *)
(* ===================================================================== *)

(** ** The tests of the package, replayed *)

Example md5_empty :
  fmt_X (MD5.sum []) = "D41D8CD98F00B204E9800998ECF8427E".
Proof. vm_compute. reflexivity. Qed.

Example Test_md5Sum :
  md5Sum (test_publicKey +:+ test_password) test_challenge
  = "376888B58EBBAA4207D9D4E898C2E504".
Proof. vm_compute. reflexivity. Qed.

Example TestMotoClient_hnapAuth_login_no_pkey :
  result_of (hnapAuth (Ext := unreachable) (fst mock_client) "Login"
               (snd mock_client))
  = Some "B390D71563C4C02619AF9D61F9D942AF 1703361406202".
Proof. vm_compute. reflexivity. Qed.

Example TestMotoClient_hnapAuth_login_with_pkey :
  result_of
    ((_ ← SetPrivateKey (Ext := unreachable) (fst mock_client)
            (md5Sum (test_publicKey +:+ test_password) test_challenge);
      hnapAuth (Ext := unreachable) (fst mock_client) "Login")
       (snd mock_client))
  = Some "FD695E907F6790F96AD8EF0FB19BCF32 1703361406202".
Proof. vm_compute. reflexivity. Qed.

Example TestMotoClient_SetPrivateKey :
  result_of
    ((_ ← SetPrivateKey (Ext := unreachable) (fst mock_client) "test";
      GetPrivateKey (Ext := unreachable) (fst mock_client))
       (snd mock_client))
  = Some ("test", None).
Proof. vm_compute. reflexivity. Qed.

Example TestNewDownstreamChannelFromLine_valid :
  NewDownstreamChannelFromLine downstreamLine = (Some expDownstreamChannel, None).
Proof. vm_compute. reflexivity. Qed.

(** ** How the calls move the state *)

Ltac run_monad :=
  unfold mbind, M_bind, mret, M_ret, panic, get_jar, put_jar in *.

Ltac step_match :=
  match goal with
  | H : context [match ?x with _ => _ end] |- _ =>
      let E := fresh "E" in destruct x eqn:E; simplify_eq; cbv beta iota in *
  | |- context [match ?x with _ => _ end] =>
      let E := fresh "E" in destruct x eqn:E; simplify_eq; cbv beta iota in *
  end.

Section ClientFacts.
Context `{Ext : External} {T : Type} `{TS : !Timestamper T}.
Implicit Types (c : MotoClient T) (s : State).

Lemma getCookie_state c name path dflt s r s' :
  getCookie c name path dflt s = Return r s' -> s' = s.
Proof.
  unfold getCookie. run_monad. intros H.
  repeat step_match; reflexivity.
Qed.

Lemma getCookie_no_panic c name path dflt s :
  exists r, getCookie c name path dflt s = Return r s.
Proof.
  unfold getCookie. run_monad.
  destruct (GetHNAPURL c); eauto.
Qed.

Lemma hnapAuth_state c action s v s' :
  hnapAuth c action s = Return v s' ->
  GetHNAPURL c = None /\
  jar s' = jar s /\ wire s' = wire s /\ clock_reads s' = S (clock_reads s).
Proof.
  unfold hnapAuth, GetPrivateKey, getCookie, call_Timestamp. run_monad.
  intros H. repeat step_match; auto.
Qed.

Lemma do_jar c action params s r s' :
  do c action params s = Return r s' -> jar s' = jar s.
Proof.
  unfold do, client_Do. run_monad. intros H.
  repeat step_match;
    try match goal with
        | H : hnapAuth _ _ _ = Return _ _ |- _ =>
            apply hnapAuth_state in H; destruct H as (_ & -> & _)
        end; reflexivity.
Qed.

End ClientFacts.

(** ** Signing *)
Section Signing.
Context `{Ext : External} {T : Type} `{TS : !Timestamper T}.
Implicit Types (c : MotoClient T) (s : State).

Lemma find_none_without_name (name path : string) (j : list Cookie) :
  (forall e, e ∈ j -> Name e <> name) ->
  find (cookie_matches name path) (jar_Cookies j) = None.
Proof.
  induction j as [|e j IH]; intros Hj; [reflexivity|].
  simpl. unfold cookie_matches at 1. simpl.
  destruct (String.eqb_spec (Name e) name) as [Heq|_].
  - exfalso. apply (Hj e); [left|exact Heq].
  - simpl. apply IH. intros e' He'. apply Hj. now right.
Qed.

(** What [hnapAuth] does when the URL parses. *)
Lemma hnapAuth_run c (action : string) s :
  GetHNAPURL c = None ->
  let ts := Timestamp (timestamper c) (clock_reads s) in
  exists key,
    GetPrivateKey c s = Return (key, None) s /\
    ((forall e, e ∈ jar s -> Name e <> privateKeyCookieName) ->
     key = defaultPrivateKeyValue) /\
    hnapAuth c action s =
      Return (md5Sum key (fmt_d ts +:+ soapNamespace +:+ action)
              +:+ " " +:+ fmt_d ts)
             {| jar := jar s; clock_reads := S (clock_reads s);
                wire := wire s |}.
Proof.
  intros Hurl ts.
  destruct (getCookie_no_panic c privateKeyCookieName "/"
              defaultPrivateKeyValue s) as [[key e] Hget].
  assert (e = None) as ->.
  { revert Hget. unfold getCookie. rewrite Hurl. run_monad.
    intros H. repeat step_match; reflexivity. }
  exists key. split; [exact Hget|]. split.
  - intros Hno. revert Hget. unfold getCookie. rewrite Hurl. run_monad.
    rewrite (find_none_without_name _ _ _ Hno). intros H. now simplify_eq.
  - unfold hnapAuth, call_Timestamp, GetPrivateKey. run_monad.
    revert Hget. unfold getCookie. rewrite Hurl. run_monad.
    simpl. intros H. repeat step_match; reflexivity.
Qed.


End Signing.

(** ** The invoker *)
Section Invoker.
Context `{Ext : External} {T : Type} `{TS : !Timestamper T}.
Implicit Types (c : MotoClient T) (s : State).

Lemma slices_Contains_spec (l : list string) (x : string) :
  slices_Contains l x = true <-> x ∈ l.
Proof.
  unfold slices_Contains. rewrite existsb_exists. split.
  - intros (y & Hy & Heq). apply String.eqb_eq in Heq. subst y.
    now apply list_elem_of_In.
  - intros Hx. exists x. split; [now apply list_elem_of_In|].
    apply String.eqb_refl.
Qed.

(** C5. An action outside the ten names is refused with the
    invalid-action error and the whole state (jar, clock readings,
    wire) is as before; each of the ten names passes the check. *)
Theorem do_unknown_action :
  (forall c (action : string) (params : GoMap) s,
      action ∉ [ "Login"; "GetHomeConnection"; "GetHomeAddress";
                 "GetMotoStatusSoftware"; "GetMotoStatusLog";
                 "GetMotoLagStatus"; "GetMotoStatusConnectionInfo";
                 "GetMotoStatusDownstreamChannelInfo";
                 "GetMotoStatusStartupSequence";
                 "GetMotoStatusUpstreamChannelInfo" ] ->
      do c action params s =
        Return (None, Some (Errorf ("invalid action: " +:+ action))) s) /\
  (forall action : string,
      action ∈ [ "Login"; "GetHomeConnection"; "GetHomeAddress";
                 "GetMotoStatusSoftware"; "GetMotoStatusLog";
                 "GetMotoLagStatus"; "GetMotoStatusConnectionInfo";
                 "GetMotoStatusDownstreamChannelInfo";
                 "GetMotoStatusStartupSequence";
                 "GetMotoStatusUpstreamChannelInfo" ] ->
      slices_Contains knownActions action = true).
Proof.
  split.
  - intros c action params s Hout. unfold do.
    destruct (slices_Contains knownActions action) eqn:E.
    + apply slices_Contains_spec in E. contradiction.
    + reflexivity.
  - intros action Hin. now apply slices_Contains_spec.
Qed.

(** Where [do] drops an error: with a known action, a body that
    marshals and a URL that parses, a failed POST, and a failed read of
    the body of a 200 response, come back as a nil map with a nil
    error. *)
Lemma do_dropped_error c (action : string) (params : GoMap) s :
  slices_Contains knownActions action = true ->
  (forall data, exists body, json_Marshal data = inl body) ->
  GetHNAPURL c = None ->
  (forall req, exists e, transport (wire s) req = DoErr e \/
                         transport (wire s) req = Response 200 (BodyErr e)) ->
  exists s', do c action params s = Return (None, None) s'.
Proof.
  intros Hknown Hmarshal Hurl Hfail. unfold do. rewrite Hknown. simpl.
  destruct (Hmarshal {[action := match params with
                                 | Some p => p | None => ∅ end]})
    as [body ->].
  destruct (hnapAuth_run c action s Hurl) as (key & _ & _ & Hauth).
  unfold client_Do, http_NewRequest. fold (GetHNAPURL c). rewrite Hurl.
  run_monad. rewrite Hauth. simpl.
  match goal with
  | |- context [transport (wire s) ?req] =>
      destruct (Hfail req) as [e [-> | ->]]
  end; simpl; eauto.
Qed.

End Invoker.

(** ** The cookie jar *)

Lemma jar_SetCookies_wf (name value : string) (j : list Cookie) :
  jar_wf j ->
  jar_wf (jar_SetCookies {| Name := name; Value := value; Path := "/" |} j).
Proof.
  unfold jar_wf. induction 1 as [|e j He Hj IH]; simpl.
  - repeat constructor.
  - destruct (same_entry _ e); constructor; auto.
Qed.

(** Storing a cookie does not change what is found under another name. *)
Lemma find_SetCookies_other (ck : Cookie) (name path : string)
    (j : list Cookie) :
  Name ck <> name ->
  find (cookie_matches name path) (jar_Cookies (jar_SetCookies ck j))
  = find (cookie_matches name path) (jar_Cookies j).
Proof.
  intros Hne.
  assert (Hck : forall p v,
    cookie_matches name path {| Name := Name ck; Value := v; Path := p |}
    = false).
  { intros p v. unfold cookie_matches. simpl.
    destruct (String.eqb_spec (Name ck) name); [contradiction|reflexivity]. }
  induction j as [|e j IH]; simpl.
  - now rewrite Hck.
  - destruct (same_entry ck e) eqn:Hsame; simpl.
    + rewrite Hck. unfold same_entry in Hsame.
      apply andb_prop in Hsame as [Hn _]. apply String.eqb_eq in Hn.
      unfold cookie_matches at 2. simpl. rewrite Hn.
      destruct (String.eqb_spec (Name ck) name); [contradiction|reflexivity].
    + now rewrite IH.
Qed.

(** In a jar of ["/"] entries, a stored cookie is the one found under its
    name. *)
Lemma find_SetCookies_same (name value : string) (j : list Cookie) :
  jar_wf j ->
  find (cookie_matches name "/")
       (jar_Cookies
          (jar_SetCookies {| Name := name; Value := value; Path := "/" |} j))
  = Some {| Name := name; Value := value; Path := "" |}.
Proof.
  assert (Hhit : forall v,
    cookie_matches name "/" {| Name := name; Value := v; Path := "" |}
    = true).
  { intros v. unfold cookie_matches. simpl. now rewrite String.eqb_refl. }
  unfold jar_wf. induction 1 as [|e j He Hj IH]; simpl.
  - now rewrite Hhit.
  - destruct (same_entry _ e) eqn:Hsame; simpl.
    + now rewrite Hhit.
    + unfold same_entry in Hsame. simpl in Hsame. rewrite He in Hsame.
      simpl in Hsame. rewrite andb_true_r in Hsame.
      unfold cookie_matches at 1. simpl. rewrite Hsame. simpl. exact IH.
Qed.

(** ** Login *)
Section LoginFacts.
Context `{Ext : External} {T : Type} `{TS : !Timestamper T}.
Implicit Types (c : MotoClient T) (s : State) (resp : GoMap).

Lemma login_rejected_false resp :
  login_rejected resp = false <-> login_accepted resp.
Proof.
  unfold login_rejected, login_accepted, index_ok. split.
  - destruct resp as [g|]; [|discriminate].
    destruct (g !! "LoginResult") as [v|] eqn:E; [|discriminate].
    simpl. intros H. exists g, v. repeat split; auto.
    intros ->. discriminate.
  - intros (g & v & -> & -> & Hv). simpl.
    destruct (String.eqb_spec v "FAILED"); [contradiction|reflexivity].
Qed.

Lemma login_rejected_true resp :
  login_rejected resp = true <-> login_refused resp.
Proof.
  unfold login_rejected, login_refused, index_ok. split.
  - destruct resp as [g|]; [|now left]. intros Hrej. right. exists g.
    split; [reflexivity|].
    destruct (g !! "LoginResult") as [v|]; [|now left]. right.
    simpl in Hrej. apply String.eqb_eq in Hrej. now subst.
  - intros [->|(g & -> & [-> | ->])]; reflexivity.
Qed.

Lemma accepted_not_refused resp : login_accepted resp -> ~ login_refused resp.
Proof.
  intros Ha Hr. apply login_rejected_false in Ha.
  apply login_rejected_true in Hr. congruence.
Qed.

(** A call of [do] that got a response map went past the signing, so the
    URL of the device parses. *)
Lemma do_value_url c (action : string) (params : GoMap) s g s' :
  do c action params s = Return (Some g, None) s' -> GetHNAPURL c = None.
Proof.
  unfold do, client_Do. run_monad. intros H.
  repeat step_match;
    match goal with
    | H : hnapAuth _ _ _ = Return _ _ |- _ =>
        now apply hnapAuth_state in H
    end.
Qed.

(** With a URL that parses nothing panics. *)
Lemma do_returns c (action : string) (params : GoMap) s :
  GetHNAPURL c = None -> exists r s', do c action params s = Return r s'.
Proof.
  intros Hurl.
  destruct (hnapAuth_run c action s Hurl) as (key & _ & _ & Hauth).
  unfold do, client_Do. run_monad.
  destruct (negb _); [eauto|]. destruct (json_Marshal _); [|eauto].
  rewrite Hauth. repeat step_match; eauto.
Qed.

Lemma GetPrivateKey_committed c (key uid : string) s :
  GetHNAPURL c = None -> jar_wf (jar s) ->
  GetPrivateKey c (committed key uid s)
  = Return (key, None) (committed key uid s).
Proof.
  intros Hurl Hwf. unfold GetPrivateKey, getCookie. rewrite Hurl.
  run_monad. simpl.
  rewrite find_SetCookies_other by discriminate.
  now rewrite find_SetCookies_same.
Qed.

Lemma GetUID_committed c (key uid : string) s :
  GetHNAPURL c = None -> jar_wf (jar s) ->
  GetUID c (committed key uid s) = Return (uid, None) (committed key uid s).
Proof.
  intros Hurl Hwf. unfold GetUID, getCookie. rewrite Hurl.
  run_monad. simpl.
  rewrite find_SetCookies_same; [reflexivity|].
  now apply jar_SetCookies_wf.
Qed.

(** The three ways through [Login], by the result of its first call. *)
Lemma Login_phase1_error c s resp err s1 :
  do c "Login" (Some (login_request c)) s = Return (resp, Some err) s1 ->
  Login c s = Return (None, Some err) s1.
Proof. intros H. unfold Login. run_monad. now rewrite H. Qed.

Lemma Login_phase1_refused c s resp s1 :
  do c "Login" (Some (login_request c)) s = Return (resp, None) s1 ->
  login_rejected resp = true ->
  Login c s = Return (None, Some LoginFailed) s1.
Proof. intros H Hrej. unfold Login. run_monad. now rewrite H, Hrej. Qed.

Lemma Login_phase2 c s resp s1 :
  do c "Login" (Some (login_request c)) s = Return (resp, None) s1 ->
  login_rejected resp = false ->
  let challenge := index resp "Challenge" in
  let key := md5Sum (index resp "PublicKey" +:+ Password c) challenge in
  let s1' := committed key (index resp "Cookie") s1 in
  GetHNAPURL c = None /\ jar s1 = jar s /\
  exists pkey r s2,
    GetPrivateKey c s1' = Return (pkey, None) s1' /\
    (jar_wf (jar s) -> pkey = key) /\
    do c "Login" (Some (login_confirm c pkey challenge)) s1' = Return r s2 /\
    jar s2 = jar s1' /\
    Login c s = Return (login_outcome r) s2.
Proof.
  intros H Hrej challenge key s1'.
  assert (Hurl : GetHNAPURL c = None).
  { apply login_rejected_false in Hrej as (g & v & -> & _).
    exact (do_value_url _ _ _ _ _ _ H). }
  pose proof (do_jar _ _ _ _ _ _ H) as Hjar1.
  split; [exact Hurl|]. split; [exact Hjar1|].
  destruct (getCookie_no_panic c privateKeyCookieName "/"
              defaultPrivateKeyValue s1') as [[pkey e] Hget].
  assert (e = None) as ->.
  { revert Hget. unfold getCookie. rewrite Hurl. run_monad.
    intros Hg. repeat step_match; reflexivity. }
  destruct (do_returns c "Login" (Some (login_confirm c pkey challenge)) s1'
              Hurl) as (r & s2 & Hdo).
  exists pkey, r, s2. split; [exact Hget|]. split.
  { intros Hwf. rewrite <- Hjar1 in Hwf.
    pose proof (GetPrivateKey_committed c key (index resp "Cookie") s1
                  Hurl Hwf) as Hkey.
    fold s1' in Hkey. unfold GetPrivateKey in Hkey. congruence. }
  split; [exact Hdo|]. split; [exact (do_jar _ _ _ _ _ _ Hdo)|].
  unfold Login. run_monad. rewrite H, Hrej.
  unfold SetPrivateKey, SetUID, setCookie. rewrite Hurl. run_monad. simpl.
  unfold GetPrivateKey. fold challenge. fold key.
  fold (committed key (index resp "Cookie") s1). fold s1'.
  rewrite Hget, Hdo.
  destruct r as [resp2 [err|]]; simpl; [reflexivity|].
  destruct (login_rejected resp2); reflexivity.
Qed.

End LoginFacts.


(** ** Login: the statements *)
Section LoginClaims.
Context `{Ext : External} {T : Type} `{TS : !Timestamper T}.
Implicit Types (c : MotoClient T) (s : State) (resp : GoMap).

(** C7. When the first call of [do] hands back a map that lacks
    [LoginResult] or has it as ["FAILED"], [Login] returns the nil map
    with the login-failed error. When the first map is accepted, the
    second call is made, and if its map lacks [LoginResult] or has it as
    ["FAILED"], [Login] again returns the nil map with the login-failed
    error, while an accepted second map is returned with a nil error.
    And [Login] returns a map with a nil error only in that last case. *)
Theorem Login_result c s :
  (forall resp s1,
      do c "Login" (Some (login_request c)) s = Return (resp, None) s1 ->
      (login_refused resp ->
       Login c s = Return (None, Some (Errorf "login failed")) s1) /\
      (login_accepted resp ->
       let challenge := index resp "Challenge" in
       let key := md5Sum (index resp "PublicKey" +:+ Password c) challenge in
       exists pkey r2 s2,
         do c "Login" (Some (login_confirm c pkey challenge))
            (committed key (index resp "Cookie") s1) = Return r2 s2 /\
         (forall resp2, r2 = (resp2, None) ->
            (login_refused resp2 ->
             Login c s = Return (None, Some (Errorf "login failed")) s2) /\
            (login_accepted resp2 ->
             Login c s = Return (resp2, None) s2)))) /\
  (forall m s',
      Login c s = Return (Some m, None) s' ->
      exists resp1 s1 data2 s1',
        do c "Login" (Some (login_request c)) s = Return (resp1, None) s1 /\
        login_accepted resp1 /\
        do c "Login" (Some data2) s1' = Return (Some m, None) s' /\
        login_accepted (Some m)).
Proof.
  split.
  - intros resp s1 H1. split.
    + intros Href. apply login_rejected_true in Href.
      exact (Login_phase1_refused c s resp s1 H1 Href).
    + intros Hacc. apply login_rejected_false in Hacc.
      destruct (Login_phase2 c s resp s1 H1 Hacc)
        as (_ & _ & pkey & r2 & s2 & _ & _ & Hdo & _ & HL).
      cbv zeta. exists pkey, r2, s2. split; [exact Hdo|].
      intros resp2 ->. rewrite HL. simpl. split.
      * intros Href. apply login_rejected_true in Href. now rewrite Href.
      * intros Hacc2. apply login_rejected_false in Hacc2.
        now rewrite Hacc2.
  - intros m s' HL.
    destruct (do c "Login" (Some (login_request c)) s)
      as [[resp1 [err|]] s1|e] eqn:H1.
    + rewrite (Login_phase1_error c s resp1 err s1 H1) in HL. discriminate.
    + destruct (login_rejected resp1) eqn:Hrej.
      * rewrite (Login_phase1_refused c s resp1 s1 H1 Hrej) in HL.
        discriminate.
      * destruct (Login_phase2 c s resp1 s1 H1 Hrej)
          as (_ & _ & pkey & r2 & s2 & _ & _ & Hdo & _ & HL').
        rewrite HL' in HL. destruct r2 as [resp2 [err|]]; simpl in HL;
          [discriminate|].
        destruct (login_rejected resp2) eqn:Hrej2; [discriminate|].
        simplify_eq. eexists resp1, s1, _, _.
        split; [reflexivity|]. split; [now apply login_rejected_false|].
        split; [exact Hdo|]. now apply login_rejected_false.
    + unfold Login in HL. run_monad. rewrite H1 in HL. discriminate.
Qed.


(** C6. For every public key [P] and challenge [C] in the accepted map of
    phase 1 and every password [W] of the client, the signing key that
    [Login] leaves stored is the upper-case hexadecimal HMAC-MD5 keyed by
    [P] followed by [W], over [C]; on the values of the package's test it
    is 376888B58EBBAA4207D9D4E898C2E504. *)
Theorem Login_signing_key :
  (forall c s g s1 (P W C : string),
      jar_wf (jar s) ->
      do c "Login" (Some (login_request c)) s = Return (Some g, None) s1 ->
      login_accepted (Some g) ->
      g !! "PublicKey" = Some P -> g !! "Challenge" = Some C ->
      Password c = W ->
      exists res s',
        Login c s = Return res s' /\
        GetPrivateKey c s' =
          Return (fmt_X (HMAC.sum (bytes_of (P +:+ W)) (bytes_of C)), None)
                 s') /\
  fmt_X (HMAC.sum (bytes_of ("jXesCa9ek/lI0/R4TNdr" +:+ "motorola"))
                  (bytes_of "q9l0h9ieIXKwJlEtTXps"))
  = "376888B58EBBAA4207D9D4E898C2E504".
Proof.
  split; [|vm_compute; reflexivity].
  intros c s g s1 P W C Hwf H1 Hacc HP HC HW.
  apply login_rejected_false in Hacc.
  destruct (Login_phase2 c s (Some g) s1 H1 Hacc)
    as (Hurl & Hjar1 & pkey & r2 & s2 & _ & _ & Hdo & Hjar2 & HL).
  exists (login_outcome r2), s2. split; [exact HL|].
  unfold index in *. rewrite HP, HC, HW in *. simpl in *.
  set (key := md5Sum (P +:+ W) C) in *.
  set (uid := default "" (g !! "Cookie")) in *.
  replace s2 with (committed key uid
    {| jar := jar s1; clock_reads := clock_reads s2; wire := wire s2 |}).
  - apply GetPrivateKey_committed; [exact Hurl|]. simpl. now rewrite Hjar1.
  - destruct s2 as [j2 n2 w2]. simpl in Hjar2. subst j2. reflexivity.
Qed.

(** C10. An accepted phase-1 map that lacks [PublicKey], [Challenge] or
    [Cookie] does not stop [Login]: each missing value reads as the empty
    string, the signing key stored is the HMAC-MD5 keyed by the public
    key (empty when missing) followed by the password over the challenge
    (empty when missing), the session id stored is the [Cookie] value
    (empty when missing), and the second call is made in that state; its
    result decides what [Login] returns. *)
Theorem Login_missing_fields c s g s1 :
  jar_wf (jar s) ->
  do c "Login" (Some (login_request c)) s = Return (Some g, None) s1 ->
  login_accepted (Some g) ->
  let P := default "" (g !! "PublicKey") in
  let C := default "" (g !! "Challenge") in
  let uid := default "" (g !! "Cookie") in
  let key := fmt_X (HMAC.sum (bytes_of (P +:+ Password c)) (bytes_of C)) in
  let s1' := committed key uid s1 in
  (g !! "PublicKey" = None ->
   key = fmt_X (HMAC.sum (bytes_of ("" +:+ Password c)) (bytes_of C))) /\
  (g !! "Challenge" = None -> C = "") /\
  (g !! "Cookie" = None -> uid = "") /\
  GetPrivateKey c s1' = Return (key, None) s1' /\
  GetUID c s1' = Return (uid, None) s1' /\
  exists r2 s2,
    do c "Login" (Some (login_confirm c key C)) s1' = Return r2 s2 /\
    Login c s = Return (login_outcome r2) s2.
Proof.
  intros Hwf H1 Hacc P C uid key s1'. apply login_rejected_false in Hacc.
  destruct (Login_phase2 c s (Some g) s1 H1 Hacc)
    as (Hurl & Hjar1 & pkey & r2 & s2 & _ & Hpkey & Hdo & _ & HL).
  rewrite (Hpkey Hwf) in Hdo.
  assert (Hwf1 : jar_wf (jar s1)) by now rewrite Hjar1.
  split; [intros HP; subst key P; now rewrite HP|].
  split; [intros HC; subst C; now rewrite HC|].
  split; [intros HU; subst uid; now rewrite HU|].
  split; [now apply GetPrivateKey_committed|].
  split; [now apply GetUID_committed|].
  exists r2, s2. split; [exact Hdo|exact HL].
Qed.

End LoginClaims.

(** ** The channel decoder *)

Example TestNewDownstreamChannelsFromResponse_valid :
  let '(got, err) := NewDownstreamChannelsFromResponse downstreamResponse in
  length got = 33%nat /\ err = None /\ head got = Some expDownstreamChannel.
Proof. vm_compute. repeat split. Qed.

Example TestNewDownstreamChannelFromLine_too_many :
  NewDownstreamChannelFromLine (downstreamLine +:+ "^test^")
  = (None, Some MalformedRecord).
Proof. vm_compute. reflexivity. Qed.

Example TestNewDownstreamChannelFromLine_too_few :
  NewDownstreamChannelFromLine "1^Locked^QAM256^20^531.0"
  = (None, Some MalformedRecord).
Proof. vm_compute. reflexivity. Qed.

Example TestNewUpstreamChannelsFromResponse_single :
  NewUpstreamChannelsFromResponse upstreamResponse
  = ([expUpstreamChannel], None).
Proof. vm_compute. reflexivity. Qed.

Example TestNewUpstreamChannelFromLine_too_many :
  NewUpstreamChannelFromLine (upstreamResponse +:+ "test^")
  = (None, Some MalformedRecord).
Proof. vm_compute. reflexivity. Qed.

Example TestNewUpstreamChannelFromLine_too_few :
  NewUpstreamChannelFromLine "1^Locked^SC-QAM^4"
  = (None, Some MalformedRecord).
Proof. vm_compute. reflexivity. Qed.

(** C8. A line whose number of fields is not the one of its schema, 9
    downstream and 7 upstream, more or fewer, is refused with the
    malformed-record error and gives no record. *)
Theorem line_field_count :
  (forall line : string,
      length (record_fields line) <> 9%nat ->
      NewDownstreamChannelFromLine line = (None, Some MalformedRecord)) /\
  (forall line : string,
      length (record_fields line) <> 7%nat ->
      NewUpstreamChannelFromLine line = (None, Some MalformedRecord)).
Proof.
  split; intros line Hlen.
  - unfold NewDownstreamChannelFromLine.
    destruct (record_fields line) as [|? [|? [|? [|? [|? [|? [|? [|? [|? [|]]]]]]]]]];
      simpl in Hlen; try reflexivity; lia.
  - unfold NewUpstreamChannelFromLine.
    destruct (record_fields line) as [|? [|? [|? [|? [|? [|? [|? [|]]]]]]]];
      simpl in Hlen; try reflexivity; lia.
Qed.

(** C9. The empty string decodes to no record and no error, downstream
    and upstream. *)
Theorem empty_response :
  NewDownstreamChannelsFromResponse "" = ([], None) /\
  NewUpstreamChannelsFromResponse "" = ([], None).
Proof. split; reflexivity. Qed.

(** C2, as amended. A line of nine fields decodes to a record exactly when
    its numeric fields parse, and then the fields are taken in the order
    channel, lock status, modulation, channel ID, frequency, power,
    signal-to-noise ratio, corrected errors, uncorrected errors: the sixth
    field is the power and the seventh the signal-to-noise ratio. *)
Theorem downstream_field_order (line f1 f2 f3 f4 f5 f6 f7 f8 f9 : string)
    (ch : DownstreamChannel.t) :
  record_fields line = [f1; f2; f3; f4; f5; f6; f7; f8; f9] ->
  NewDownstreamChannelFromLine line = (Some ch, None) <->
  int_field f1 = Some (DownstreamChannel.Channel ch) /\
  f2 = DownstreamChannel.LockStatus ch /\
  f3 = DownstreamChannel.Modulation ch /\
  int_field f4 = Some (DownstreamChannel.ChannelID ch) /\
  float_field f5 = Some (DownstreamChannel.Frequency ch) /\
  float_field f6 = Some (DownstreamChannel.Power ch) /\
  float_field f7 = Some (DownstreamChannel.SignalToNoise ch) /\
  int_field f8 = Some (DownstreamChannel.CorrectedErrors ch) /\
  int_field f9 = Some (DownstreamChannel.UncorrectedErrors ch).
Proof.
  intros Hf. unfold NewDownstreamChannelFromLine. rewrite Hf. split.
  - intros H.
    destruct (int_field f1), (int_field f4), (float_field f5),
      (float_field f6), (float_field f7), (int_field f8), (int_field f9);
      try discriminate.
    injection H as <-. simpl. repeat split.
  - intros (-> & -> & -> & -> & -> & -> & -> & -> & ->).
    destruct ch. reflexivity.
Qed.

(** C2, the counterexample. On the first line of the test's response the
    record the test requires has the sixth field, 2.8, as its power and
    the seventh, 45.1, as its signal-to-noise ratio; reading the sixth
    field as the signal-to-noise ratio gives another record. *)
Lemma downstream_sixth_field_is_power :
  record_fields downstreamLine
  = ["1"; "Locked"; "QAM256"; "20"; "531.0"; " 2.8"; "45.1"; "0"; "0"] /\
  NewDownstreamChannelFromLine downstreamLine
  = (Some expDownstreamChannel, None) /\
  float_field " 2.8"
  <> Some (DownstreamChannel.SignalToNoise expDownstreamChannel) /\
  float_field "45.1" <> Some (DownstreamChannel.Power expDownstreamChannel) /\
  NewDownstreamChannelFromLine_spec_order downstreamLine
  <> (Some expDownstreamChannel, None).
Proof.
  repeat split; try (vm_compute; reflexivity); vm_compute; discriminate.
Qed.

(** ** The statements at concrete inputs *)

Lemma jar_wf_new : jar_wf (jar (snd mock_client)).
Proof. constructor. Defined.

Lemma challenge_map_accepted : login_accepted (Some challenge_map).
Proof.
  exists challenge_map, "OK". split; [reflexivity|].
  split; [vm_compute; reflexivity|discriminate].
Defined.

(** C1, at a failing input: the device does not answer (the POST fails),
    or answers 200 and the connection breaks while the body is read; [do]
    returns the nil map and the nil error. *)
Theorem do_drops_transport_error :
  result_of (do (Ext := unreachable) (fst mock_client) "GetHomeAddress" None
               (snd mock_client))
  = Some (None, None) /\
  result_of
    (do (Ext := scripted [Response 200 (BodyErr (Errorf "unexpected EOF"))])
        (fst mock_client) "GetHomeAddress" None (snd mock_client))
  = Some (None, None).
Proof. split; vm_compute; reflexivity. Qed.

(** What follows for a caller: with the device unreachable the accessor
    reports no channels and no error. *)
Example GetDownstreamChannels_unreachable :
  result_of (GetDownstreamChannels (Ext := unreachable) (fst mock_client)
               (snd mock_client))
  = Some ([], None).
Proof. vm_compute. reflexivity. Qed.

(** A login that goes through. *)
Example Login_accepted_twice :
  result_of
    (Login (Ext := scripted [Response 200 (BodyData "challenge");
                             Response 200 (BodyData "ok")])
       (fst mock_client) (snd mock_client))
  = Some (Some {[ "LoginResult" := "OK" ]}, None).
Proof. vm_compute. reflexivity. Qed.


Lemma do_unknown_action_witness :
  ("Reboot" ∉ knownActions) /\
  do (Ext := unreachable) (fst mock_client) "Reboot" None (snd mock_client)
  = Return (None, Some (Errorf "invalid action: Reboot")) (snd mock_client).
Proof.
  assert (Hout : "Reboot" ∉ knownActions).
  { intros Hin. apply slices_Contains_spec in Hin. discriminate. }
  split; [exact Hout|].
  exact (proj1 (do_unknown_action (Ext := unreachable)) (fst mock_client)
           "Reboot" None (snd mock_client) Hout).
Defined.

Lemma Login_result_witness :
  do (Ext := refusing) (fst mock_client) "Login"
     (Some (login_request (fst mock_client))) (snd mock_client)
  = Return (Some {[ "LoginResult" := "FAILED" ]}, None) after_first_login /\
  login_refused (Some {[ "LoginResult" := "FAILED" ]}) /\
  Login (Ext := refusing) (fst mock_client) (snd mock_client)
  = Return (None, Some (Errorf "login failed")) after_first_login.
Proof.
  assert (Hdo : do (Ext := refusing) (fst mock_client) "Login"
                   (Some (login_request (fst mock_client))) (snd mock_client)
                = Return (Some {[ "LoginResult" := "FAILED" ]}, None)
                         after_first_login)
    by (vm_compute; reflexivity).
  assert (Href : login_refused (Some {[ "LoginResult" := "FAILED" ]})).
  { right. eexists. split; [reflexivity|]. right. reflexivity. }
  split; [exact Hdo|]. split; [exact Href|].
  exact (proj1 (proj1 (Login_result (Ext := refusing) (fst mock_client)
                         (snd mock_client)) _ _ Hdo) Href).
Defined.


Lemma Login_signing_key_witness :
  do (Ext := refusing_late) (fst mock_client) "Login"
     (Some (login_request (fst mock_client))) (snd mock_client)
  = Return (Some challenge_map, None) after_first_login /\
  challenge_map !! "PublicKey" = Some test_publicKey /\
  challenge_map !! "Challenge" = Some test_challenge /\
  exists res s',
    Login (Ext := refusing_late) (fst mock_client) (snd mock_client)
    = Return res s' /\
    GetPrivateKey (Ext := refusing_late) (fst mock_client) s'
    = Return (fmt_X (HMAC.sum (bytes_of (test_publicKey +:+ test_password))
                              (bytes_of test_challenge)), None) s'.
Proof.
  assert (Hdo : do (Ext := refusing_late) (fst mock_client) "Login"
                   (Some (login_request (fst mock_client))) (snd mock_client)
                = Return (Some challenge_map, None) after_first_login)
    by (vm_compute; reflexivity).
  assert (HP : challenge_map !! "PublicKey" = Some test_publicKey)
    by (vm_compute; reflexivity).
  assert (HC : challenge_map !! "Challenge" = Some test_challenge)
    by (vm_compute; reflexivity).
  split; [exact Hdo|]. split; [exact HP|]. split; [exact HC|].
  exact (proj1 (Login_signing_key (Ext := refusing_late))
           (fst mock_client) (snd mock_client) challenge_map
           after_first_login test_publicKey test_password test_challenge
           jar_wf_new Hdo challenge_map_accepted HP HC eq_refl).
Defined.

Lemma Login_missing_fields_witness :
  do (Ext := terse) (fst mock_client) "Login"
     (Some (login_request (fst mock_client))) (snd mock_client)
  = Return (Some {[ "LoginResult" := "OK" ]}, None) after_first_login /\
  let key := md5Sum ("" +:+ test_password) "" in
  let s1' := committed key "" after_first_login in
  GetPrivateKey (Ext := terse) (fst mock_client) s1' = Return (key, None) s1' /\
  GetUID (Ext := terse) (fst mock_client) s1' = Return ("", None) s1' /\
  exists r2 s2,
    do (Ext := terse) (fst mock_client) "Login"
       (Some (login_confirm (fst mock_client) key "")) s1' = Return r2 s2 /\
    Login (Ext := terse) (fst mock_client) (snd mock_client)
    = Return (login_outcome r2) s2.
Proof.
  assert (Hdo : do (Ext := terse) (fst mock_client) "Login"
                   (Some (login_request (fst mock_client))) (snd mock_client)
                = Return (Some {[ "LoginResult" := "OK" ]}, None)
                         after_first_login)
    by (vm_compute; reflexivity).
  assert (Hacc : login_accepted (Some {[ "LoginResult" := "OK" ]})).
  { eexists _, "OK". split; [reflexivity|].
    split; [vm_compute; reflexivity|discriminate]. }
  split; [exact Hdo|].
  destruct (Login_missing_fields (Ext := terse) (fst mock_client)
              (snd mock_client) _ _ jar_wf_new Hdo Hacc)
    as (_ & _ & _ & Hkey & Huid & Hnext).
  intros key s1'. split; [exact Hkey|]. split; [exact Huid|exact Hnext].
Defined.

Lemma line_field_count_witness :
  length (record_fields "1^Locked^QAM256^20^531.0") <> 9%nat /\
  NewDownstreamChannelFromLine "1^Locked^QAM256^20^531.0"
  = (None, Some MalformedRecord) /\
  length (record_fields (upstreamResponse +:+ "test^")) <> 7%nat /\
  NewUpstreamChannelFromLine (upstreamResponse +:+ "test^")
  = (None, Some MalformedRecord).
Proof.
  assert (H5 : length (record_fields "1^Locked^QAM256^20^531.0") <> 9%nat)
    by (vm_compute; discriminate).
  assert (H8 : length (record_fields (upstreamResponse +:+ "test^")) <> 7%nat)
    by (vm_compute; discriminate).
  split; [exact H5|]. split; [exact (proj1 line_field_count _ H5)|].
  split; [exact H8|exact (proj2 line_field_count _ H8)].
Defined.

Lemma downstream_field_order_witness :
  record_fields downstreamLine
  = ["1"; "Locked"; "QAM256"; "20"; "531.0"; " 2.8"; "45.1"; "0"; "0"] /\
  float_field " 2.8" = Some (DownstreamChannel.Power expDownstreamChannel) /\
  float_field "45.1"
  = Some (DownstreamChannel.SignalToNoise expDownstreamChannel).
Proof.
  assert (Hf : record_fields downstreamLine
               = ["1"; "Locked"; "QAM256"; "20"; "531.0"; " 2.8"; "45.1";
                  "0"; "0"]) by (vm_compute; reflexivity).
  assert (Hd : NewDownstreamChannelFromLine downstreamLine
               = (Some expDownstreamChannel, None))
    by (vm_compute; reflexivity).
  split; [exact Hf|].
  destruct (proj1 (downstream_field_order downstreamLine _ _ _ _ _ _ _ _ _
                     expDownstreamChannel Hf) Hd)
    as (_ & _ & _ & _ & _ & Hpower & Hsnr & _).
  split; [exact Hpower|exact Hsnr].
Defined.

(* ===================================================================== *)
(** * Part III: further properties of client.go                           *)
(* ===================================================================== *)

(** ** The session cookies *)
Section Cookies.
Context `{Ext : External} {T : Type} `{TS : !Timestamper T}.
Implicit Types (c : MotoClient T) (s : State).

Lemma getCookie_stored c (name dflt : string) s :
  GetHNAPURL c = None ->
  getCookie c name "/" dflt s = Return (stored name dflt s, None) s.
Proof.
  intros Hurl. unfold getCookie, stored. rewrite Hurl. run_monad.
  destruct (find _ _); reflexivity.
Qed.

Lemma setCookie_run c (name value path : string) s :
  GetHNAPURL c = None ->
  setCookie c name value path s =
    Return None
      {| jar := jar_SetCookies
                  {| Name := name; Value := value; Path := path |} (jar s);
         clock_reads := clock_reads s; wire := wire s |}.
Proof. intros Hurl. unfold setCookie. rewrite Hurl. reflexivity. Qed.

(** X1. A value stored with [setCookie] under the path ["/"] is the value
    [getCookie] reads back under that name, and storing twice leaves the
    last value. *)
Theorem cookie_set_get c (name v0 value dflt : string) s :
  GetHNAPURL c = None ->
  jar_wf (jar s) ->
  exists s',
    (_ ← setCookie c name v0 "/"; _ ← setCookie c name value "/";
     getCookie c name "/" dflt) s = Return (value, None) s' /\
    (_ ← setCookie c name value "/"; getCookie c name "/" dflt) s
    = Return (value, None)
        {| jar := jar_SetCookies
                    {| Name := name; Value := value; Path := "/" |} (jar s);
           clock_reads := clock_reads s; wire := wire s |}.
Proof.
  intros Hurl Hwf. eexists. run_monad.
  repeat (rewrite setCookie_run by exact Hurl; cbv beta iota).
  rewrite !getCookie_stored by exact Hurl. unfold stored. simpl.
  rewrite !find_SetCookies_same;
    [split; reflexivity|exact Hwf|now apply jar_SetCookies_wf].
Qed.

(** X2. Storing a cookie under one name does not change what is read under
    another name: the signing key and the session id do not disturb each
    other. *)
Theorem cookie_set_other c (name value path name' path' dflt : string) s :
  name <> name' ->
  forall s', setCookie c name value path s = Return None s' ->
  exists r,
    getCookie c name' path' dflt s = Return r s /\
    getCookie c name' path' dflt s' = Return r s'.
Proof.
  intros Hne s'. unfold setCookie, getCookie.
  destruct (GetHNAPURL c) as [err|]; [discriminate|].
  run_monad. intros Hset. simplify_eq. simpl.
  rewrite (find_SetCookies_other {| Name := name; Value := value;
                                    Path := path |}) by exact Hne.
  eexists. split; reflexivity.
Qed.

(** X3. While the jar has no cookie of that name, [getCookie] gives the
    default: a client that has not logged in signs with
    [withoutloginkey] and has the empty session id. Reading never changes
    the state. *)
Theorem getCookie_absent c (name path dflt : string) s :
  GetHNAPURL c = None ->
  (forall e, e ∈ jar s -> Name e <> name) ->
  getCookie c name path dflt s = Return (dflt, None) s /\
  (name = "PrivateKey" ->
   GetPrivateKey c s = Return ("withoutloginkey", None) s) /\
  (name = "uid" -> GetUID c s = Return ("", None) s).
Proof.
  intros Hurl Hno.
  assert (Hget : forall p d, getCookie c name p d s = Return (d, None) s).
  { intros p d. unfold getCookie. rewrite Hurl. run_monad.
    now rewrite (find_none_without_name _ _ _ Hno). }
  split; [apply Hget|]. split; intros ->; apply Hget.
Qed.

Lemma hnapAuth_panics c (err : error) (action : string) s :
  GetHNAPURL c = Some err -> hnapAuth c action s = Panic err.
Proof.
  intros Hurl. unfold hnapAuth, GetPrivateKey, getCookie, call_Timestamp.
  rewrite Hurl. reflexivity.
Qed.

(** X4. With an address that does not parse as a URL, [getCookie] returns the
    empty string with the parse error (not the default), [setCookie]
    returns the error and stores nothing, and [hnapAuth] panics with it
    after it has read the clock. *)
Theorem cookie_url_error c (err : error) s :
  GetHNAPURL c = Some err ->
  (forall name path dflt,
      getCookie c name path dflt s = Return ("", Some err) s) /\
  (forall name value path,
      setCookie c name value path s = Return (Some err) s) /\
  (forall action, hnapAuth c action s = Panic err).
Proof.
  intros Hurl. split; [|split].
  - intros name path dflt. unfold getCookie. now rewrite Hurl.
  - intros name value path. unfold setCookie. now rewrite Hurl.
  - intros action. now apply hnapAuth_panics.
Qed.

End Cookies.

(** ** The invoker, step by step *)
Section InvokerSteps.
Context `{Ext : External} {T : Type} `{TS : !Timestamper T}.
Implicit Types (c : MotoClient T) (s : State).

Lemma hnapAuth_token_eq c (action : string) s :
  GetHNAPURL c = None ->
  hnapAuth c action s =
    Return (token c action s)
           {| jar := jar s; clock_reads := S (clock_reads s);
              wire := wire s |}.
Proof.
  intros Hurl. unfold hnapAuth, call_Timestamp, GetPrivateKey. run_monad.
  rewrite getCookie_stored by exact Hurl. reflexivity.
Qed.

(** [do] on a known action whose body marshals, with a URL that parses:
    one clock reading, one request, and a result read off the answer. *)
Lemma do_run c (action : string) (params : GoMap) s (body : string) :
  slices_Contains knownActions action = true ->
  json_Marshal {[ action := match params with
                            | None => ∅
                            | Some p => p
                            end ]} = inl body ->
  GetHNAPURL c = None ->
  do c action params s =
    Return
      (match transport (wire s) (outgoing c action body s) with
       | DoErr _ => (None, None)
       | Response code rb =>
           if negb (code =? 200) then (None, Some (NonOKStatus action code))
           else match rb with
                | BodyErr _ => (None, None)
                | BodyData d =>
                    match json_Unmarshal d with
                    | inr err => (None, Some err)
                    | inl env =>
                        match env !! (action +:+ "Response") with
                        | None => (None, Some NoResponse)
                        | Some v => (v, None)
                        end
                    end
                end
       end)
      (signed_and_sent (outgoing c action body s) s).
Proof.
  intros Hknown Hmarshal Hurl. unfold do. rewrite Hknown.
  change (negb true) with false. cbv beta iota. rewrite Hmarshal.
  unfold client_Do, http_NewRequest. fold (GetHNAPURL c). rewrite Hurl.
  run_monad. rewrite (hnapAuth_token_eq c action s Hurl). cbv beta iota.
  unfold signed_and_sent, outgoing, GetHNAPURI.
  cbn [Method URL Header Cookies Body jar clock_reads wire].
  rewrite (right_id_L ∅ (∪)).
  destruct (transport _ _) as [e|code rb]; [reflexivity|].
  destruct (negb (code =? 200)); [reflexivity|].
  destruct rb as [d|e]; [|reflexivity].
  destruct (json_Unmarshal d) as [env|err]; [|reflexivity].
  destruct (env !! _); reflexivity.
Qed.



(** X7. A 200 answer whose body was read: a body that does not unmarshal
    gives the nil map and the error of [json.Unmarshal]; an envelope
    without the key [<action>Response] gives the nil map and the
    no-response error, whatever other keys it has; otherwise the value
    under that key is returned with the nil error. *)
Theorem do_envelope c (action : string) (params : GoMap) s
    (body data : string) :
  slices_Contains knownActions action = true ->
  json_Marshal {[ action := match params with
                            | None => ∅
                            | Some p => p
                            end ]} = inl body ->
  GetHNAPURL c = None ->
  transport (wire s) (outgoing c action body s)
  = Response 200 (BodyData data) ->
  let s' := signed_and_sent (outgoing c action body s) s in
  (forall err, json_Unmarshal data = inr err ->
     do c action params s = Return (None, Some err) s') /\
  (forall env, json_Unmarshal data = inl env ->
     env !! (action +:+ "Response") = None ->
     do c action params s
     = Return (None, Some (Errorf "no response from modem")) s') /\
  (forall env value, json_Unmarshal data = inl env ->
     env !! (action +:+ "Response") = Some value ->
     do c action params s = Return (value, None) s').
Proof.
  intros Hknown Hmarshal Hurl Hrt s'.
  rewrite (do_run c action params s body Hknown Hmarshal Hurl), Hrt.
  change (negb (200 =? 200)) with false. cbv beta iota. repeat split.
  - intros err ->. reflexivity.
  - intros env Henv Hkey. rewrite Henv. cbv beta iota.
    unfold GoMap in *. now rewrite Hkey.
  - intros env value Henv Hkey. rewrite Henv. cbv beta iota.
    unfold GoMap in *. now rewrite Hkey.
Qed.

(** X8. With an address that does not parse as a URL a call on a known action
    does not return an error: it panics, in [hnapAuth], and so does
    [Login]. *)
Theorem do_url_panic c (err : error) s :
  GetHNAPURL c = Some err ->
  (forall data, exists body, json_Marshal data = inl body) ->
  (forall action params,
      slices_Contains knownActions action = true ->
      do c action params s = Panic err) /\
  Login c s = Panic err.
Proof.
  intros Hurl Hmarshal.
  assert (Hdo : forall action params,
             slices_Contains knownActions action = true ->
             do c action params s = Panic err).
  { intros action params Hknown. unfold do. rewrite Hknown.
    change (negb true) with false. cbv beta iota.
    destruct (Hmarshal {[ action := match params with
                                    | None => ∅
                                    | Some p => p
                                    end ]}) as [body ->].
    run_monad. now rewrite (hnapAuth_panics c err action s Hurl). }
  split; [exact Hdo|].
  unfold Login. run_monad. now rewrite Hdo.
Qed.

End InvokerSteps.

(** ** What a call returns and what it leaves behind *)
Section Frames.
Context `{Ext : External} {T : Type} `{TS : !Timestamper T}.
Implicit Types (c : MotoClient T) (s : State).

Lemma do_error_nil c (action : string) (params : GoMap) s r err s' :
  do c action params s = Return (r, Some err) s' -> r = None.
Proof.
  unfold do, client_Do. run_monad. intros H.
  repeat step_match; reflexivity.
Qed.


(** X9. The shapes of the results. An error of [do] always comes with the
    nil map. [Login] returns either the nil map with an error, or an
    accepted map with the nil error: unlike [do] it never returns the nil
    map with the nil error. *)
Theorem result_shapes c s :
  (forall action params r err s',
      do c action params s = Return (r, Some err) s' -> r = None) /\
  (forall r e s',
      Login c s = Return (r, e) s' ->
      (r = None /\ exists err, e = Some err) \/
      (exists m, r = Some m /\ e = None /\ login_accepted (Some m))).
Proof.
  split; [intros action params r err s'; apply do_error_nil|].
  intros r e s' HL.
  destruct (do c "Login" (Some (login_request c)) s)
    as [[resp1 [err|]] s1|e1] eqn:H1.
  - rewrite (Login_phase1_error c s resp1 err s1 H1) in HL. simplify_eq.
    left. eauto.
  - destruct (login_rejected resp1) eqn:Hrej.
    + rewrite (Login_phase1_refused c s resp1 s1 H1 Hrej) in HL.
      simplify_eq. left. eauto.
    + destruct (Login_phase2 c s resp1 s1 H1 Hrej)
        as (_ & _ & pkey & r2 & s2 & _ & _ & _ & _ & HL').
      rewrite HL' in HL. destruct r2 as [resp2 [err|]]; simpl in HL.
      * simplify_eq. left. eauto.
      * destruct (login_rejected resp2) eqn:Hrej2; simplify_eq.
        -- left. eauto.
        -- right. apply login_rejected_false in Hrej2.
           destruct Hrej2 as (g & v & -> & Hv). exists g.
           repeat split. exists g, v. split; [reflexivity|exact Hv].
  - unfold Login in HL. run_monad. rewrite H1 in HL. discriminate.
Qed.



End Frames.

(** ** Login on the wire *)
Section LoginWire.
Context `{Ext : External} {T : Type} `{TS : !Timestamper T}.
Implicit Types (c : MotoClient T) (s : State).





End LoginWire.

(** ** The format of a signature *)

Lemma land_byte (x : Z) : 0 <= Z.land x 0xFF < 256.
Proof.
  change 0xFF with (Z.ones 8). rewrite Z.land_ones by lia.
  apply Z.mod_pos_bound. lia.
Qed.

Lemma MD5_sum_bytes (msg : list Z) :
  length (MD5.sum msg) = 16%nat /\
  Forall (fun b => 0 <= b < 256) (MD5.sum msg).
Proof.
  unfold MD5.sum. generalize (fold_left MD5.block
    (MD5.blocks (length (MD5.words_of (MD5.pad msg)))
       (MD5.words_of (MD5.pad msg))) MD5.init).
  intros d. split; [reflexivity|].
  unfold MD5.le_bytes. simpl. repeat constructor; apply land_byte.
Qed.

Lemma hex_digit_upper (n : Z) :
  0 <= n < 16 -> is_upper_hex (hex_digit n) = true.
Proof.
  intros Hn. rewrite <- (Z2Nat.id n) by lia.
  assert (Hk : (Z.to_nat n < 16)%nat) by lia.
  revert Hk. generalize (Z.to_nat n). intros k Hk.
  do 16 (destruct k as [|k]; [reflexivity|]). lia.
Qed.

Lemma fmt_X_hex (bs : list Z) :
  Forall (fun b => 0 <= b < 256) bs ->
  String.length (fmt_X bs) = (2 * length bs)%nat /\
  forallb is_upper_hex (list_ascii_of_string (fmt_X bs)) = true.
Proof.
  induction 1 as [|b bs Hb Hbs [IHlen IHhex]]; [split; reflexivity|].
  split.
  - simpl String.length. rewrite IHlen. simpl. lia.
  - cbn [fmt_X list_ascii_of_string forallb]. rewrite IHhex.
    rewrite !hex_digit_upper; [reflexivity| |].
    + change 0xF with (Z.ones 4). rewrite Z.land_ones by lia.
      apply Z.mod_pos_bound. lia.
    + rewrite Z.shiftr_div_pow2 by lia. change (2 ^ 4) with 16. split.
      * apply Z.div_pos; lia.
      * apply Z.div_lt_upper_bound; lia.
Qed.

(** X15. The signature format. Whatever the key and the data, also empty
    ones and keys longer than a block, [md5Sum] returns exactly 32
    characters, each an upper-case hexadecimal digit. *)
Theorem md5Sum_format (key data : string) :
  String.length (md5Sum key data) = 32%nat /\
  forallb is_upper_hex (list_ascii_of_string (md5Sum key data)) = true.
Proof.
  unfold md5Sum, HMAC.sum.
  destruct (MD5_sum_bytes
              (map (Z.lxor 92) (HMAC.block_key (bytes_of key))
               ++ MD5.sum (map (Z.lxor 54) (HMAC.block_key (bytes_of key))
                           ++ bytes_of data))) as [Hlen Hbytes].
  destruct (fmt_X_hex _ Hbytes) as [Hl Hh].
  split; [rewrite Hl, Hlen; reflexivity|exact Hh].
Qed.

(** ** The accessors *)
Section AccessorFacts.
Context `{Ext : External} {T : Type} `{TS : !Timestamper T}.
Implicit Types (c : MotoClient T) (s : State).


(** X17. An accessor and a response without the channel data. When the
    response map of the action lacks the key [MotoConnDownstreamChannel]
    (or [MotoConnUpstreamChannel]), and also when [do] hands back the nil
    map with the nil error, the accessor decodes the empty string: it
    returns no channel and no error. *)
Theorem accessor_missing_data c s (resp : GoMap) s1 :
  (do c "GetMotoStatusDownstreamChannelInfo" None s = Return (resp, None) s1 ->
   index_ok resp "MotoConnDownstreamChannel" = ("", false) ->
   GetDownstreamChannels c s = Return ([], None) s1) /\
  (do c "GetMotoStatusUpstreamChannelInfo" None s = Return (resp, None) s1 ->
   index_ok resp "MotoConnUpstreamChannel" = ("", false) ->
   GetUpstreamChannels c s = Return ([], None) s1).
Proof.
  assert (Hidx : forall k, index_ok resp k = ("", false) -> index resp k = "").
  { intros k. unfold index_ok, index. destruct resp as [g|]; [|reflexivity].
    destruct (g !! k); [discriminate|reflexivity]. }
  split; intros Hdo Hkey.
  - unfold GetDownstreamChannels. run_monad. rewrite Hdo.
    now rewrite (Hidx _ Hkey).
  - unfold GetUpstreamChannels. run_monad. rewrite Hdo.
    now rewrite (Hidx _ Hkey).
Qed.

End AccessorFacts.

(** ** Logging in again *)




(** ** The further properties at concrete inputs *)

Lemma cookie_set_get_witness :
  GetHNAPURL (Ext := unreachable) (fst mock_client) = None /\
  jar_wf (jar (snd mock_client)) /\
  (_ ← setCookie (Ext := unreachable) (fst mock_client) "PrivateKey" "test" "/";
   getCookie (Ext := unreachable) (fst mock_client) "PrivateKey" "/"
     "withoutloginkey") (snd mock_client)
  = Return ("test", None)
      {| jar := [ {| Name := "PrivateKey"; Value := "test"; Path := "/" |} ];
         clock_reads := 0; wire := [] |}.
Proof.
  split; [reflexivity|]. split; [exact jar_wf_new|].
  destruct (cookie_set_get (Ext := unreachable) (fst mock_client)
              "PrivateKey" "old" "test" "withoutloginkey" (snd mock_client)
              eq_refl jar_wf_new) as (s' & _ & H).
  exact H.
Defined.

Lemma cookie_set_other_witness :
  "PrivateKey" <> "uid" /\
  exists s' r,
    SetPrivateKey (Ext := unreachable) (fst mock_client) "test"
      (snd mock_client) = Return None s' /\
    GetUID (Ext := unreachable) (fst mock_client) (snd mock_client)
    = Return r (snd mock_client) /\
    GetUID (Ext := unreachable) (fst mock_client) s' = Return r s'.
Proof.
  assert (Hne : "PrivateKey" <> "uid") by discriminate.
  split; [exact Hne|].
  exists {| jar := [ {| Name := "PrivateKey"; Value := "test";
                        Path := "/" |} ];
            clock_reads := 0; wire := [] |}.
  destruct (cookie_set_other (Ext := unreachable) (fst mock_client)
              "PrivateKey" "test" "/" "uid" "/" "" (snd mock_client) Hne
              {| jar := [ {| Name := "PrivateKey"; Value := "test";
                             Path := "/" |} ];
                 clock_reads := 0; wire := [] |} eq_refl) as (r & H0 & H1).
  exists r. split; [reflexivity|]. split; [exact H0|exact H1].
Defined.

Lemma getCookie_absent_witness :
  GetHNAPURL (Ext := unreachable) (fst mock_client) = None /\
  GetPrivateKey (Ext := unreachable) (fst mock_client) (snd mock_client)
  = Return ("withoutloginkey", None) (snd mock_client).
Proof.
  split; [reflexivity|].
  refine (proj1 (proj2 (getCookie_absent (Ext := unreachable)
                          (fst mock_client) "PrivateKey" "/" ""
                          (snd mock_client) eq_refl _)) eq_refl).
  intros e He. now apply elem_of_nil in He.
Defined.

Lemma cookie_url_error_witness :
  GetHNAPURL (Ext := unparsable) (fst mock_client)
  = Some (Errorf "invalid URL") /\
  GetPrivateKey (Ext := unparsable) (fst mock_client) (snd mock_client)
  = Return ("", Some (Errorf "invalid URL")) (snd mock_client) /\
  SetUID (Ext := unparsable) (fst mock_client) "sid-1" (snd mock_client)
  = Return (Some (Errorf "invalid URL")) (snd mock_client) /\
  hnapAuth (Ext := unparsable) (fst mock_client) "Login" (snd mock_client)
  = Panic (Errorf "invalid URL").
Proof.
  split; [reflexivity|].
  destruct (cookie_url_error (Ext := unparsable) (fst mock_client)
              (Errorf "invalid URL") (snd mock_client) eq_refl)
    as (Hget & Hset & Hauth).
  split; [apply Hget|]. split; [apply Hset|apply Hauth].
Defined.



Lemma do_envelope_witness :
  do (Ext := answering 200 {[ "LoginResponse" := Some ∅ ]}) (fst mock_client)
     "GetHomeAddress" None (snd mock_client)
  = Return (None, Some (Errorf "no response from modem"))
      (signed_and_sent
         (outgoing (fst mock_client) "GetHomeAddress" "{}" (snd mock_client))
         (snd mock_client)) /\
  do (Ext := answering 200 {[ "LoginResponse" := Some ∅ ]}) (fst mock_client)
     "Login" None (snd mock_client)
  = Return (Some ∅, None)
      (signed_and_sent
         (outgoing (fst mock_client) "Login" "{}" (snd mock_client))
         (snd mock_client)).
Proof.
  split.
  - refine (proj1 (proj2 (do_envelope
              (Ext := answering 200 {[ "LoginResponse" := Some ∅ ]})
              (fst mock_client) "GetHomeAddress" None (snd mock_client)
              "{}" "{}" eq_refl eq_refl eq_refl eq_refl)) _ eq_refl _).
    vm_compute. reflexivity.
  - refine (proj2 (proj2 (do_envelope
              (Ext := answering 200 {[ "LoginResponse" := Some ∅ ]})
              (fst mock_client) "Login" None (snd mock_client)
              "{}" "{}" eq_refl eq_refl eq_refl eq_refl)) _ _ eq_refl _).
    vm_compute. reflexivity.
Defined.

Lemma do_url_panic_witness :
  GetHNAPURL (Ext := unparsable) (fst mock_client)
  = Some (Errorf "invalid URL") /\
  do (Ext := unparsable) (fst mock_client) "GetHomeAddress" None
     (snd mock_client) = Panic (Errorf "invalid URL") /\
  Login (Ext := unparsable) (fst mock_client) (snd mock_client)
  = Panic (Errorf "invalid URL").
Proof.
  split; [reflexivity|].
  destruct (do_url_panic (Ext := unparsable) (fst mock_client)
              (Errorf "invalid URL") (snd mock_client) eq_refl)
    as (Hdo & HL); [intros data; now exists "{}"|].
  split; [now apply Hdo|exact HL].
Defined.

Lemma refusing_Login :
  Login (Ext := refusing) (fst mock_client) (snd mock_client)
  = Return (None, Some LoginFailed) after_first_login.
Proof. vm_compute. reflexivity. Defined.


Lemma result_shapes_witness :
  Login (Ext := refusing) (fst mock_client) (snd mock_client)
  = Return (None, Some LoginFailed) after_first_login /\
  ((@None (gmap string string) = None /\
    exists err, Some LoginFailed = Some err) \/
   (exists m, None = Some m /\ Some LoginFailed = None /\
              login_accepted (Some m))).
Proof.
  split; [exact refusing_Login|].
  exact (proj2 (result_shapes (Ext := refusing) (fst mock_client)
                  (snd mock_client)) _ _ _ refusing_Login).
Defined.








Lemma accessor_missing_data_witness :
  exists s1,
    do (Ext := answering 200
                 {[ "GetMotoStatusDownstreamChannelInfoResponse" := Some ∅ ]})
       (fst mock_client) "GetMotoStatusDownstreamChannelInfo" None
       (snd mock_client) = Return (Some ∅, None) s1 /\
    GetDownstreamChannels
      (Ext := answering 200
                {[ "GetMotoStatusDownstreamChannelInfoResponse" := Some ∅ ]})
      (fst mock_client) (snd mock_client) = Return ([], None) s1.
Proof.
  exists (signed_and_sent
            (outgoing (fst mock_client) "GetMotoStatusDownstreamChannelInfo"
               "{}" (snd mock_client))
            (snd mock_client)).
  assert (Hdo :
    do (Ext := answering 200
                 {[ "GetMotoStatusDownstreamChannelInfoResponse" := Some ∅ ]})
       (fst mock_client) "GetMotoStatusDownstreamChannelInfo" None
       (snd mock_client)
    = Return (Some ∅, None)
        (signed_and_sent
           (outgoing (fst mock_client) "GetMotoStatusDownstreamChannelInfo"
              "{}" (snd mock_client))
           (snd mock_client))) by (vm_compute; reflexivity).
  split; [exact Hdo|].
  exact (proj1 (accessor_missing_data
                  (Ext := answering 200
                     {[ "GetMotoStatusDownstreamChannelInfoResponse" :=
                          Some ∅ ]})
                  (fst mock_client) (snd mock_client) (Some ∅) _)
           Hdo eq_refl).
Defined.
